(** * Profile repository manager (rekall, [repository_manager.py])

    A shallow embedding of [rekall/plugins/tools/repository_manager.py]:
    the four repository plugins ([WindowsGUIDProfile], [CopyAndTransform],
    [OSXProfile], [LinuxProfile]), the transform step they share, the index
    build and the [ManageRepository.render] loop that drives them.

    Python code that touches the repository is written in a small monad
    that threads the store, stops at the first raised exception and
    records every call made to the store and to the external plugins. *)

From Stdlib Require Import ZArith Ascii String.
From stdpp Require Import base option list gmap strings fin_maps.

Set Warnings "-register-all".

Open Scope string_scope.
Open Scope Z_scope.
Open Scope list_scope.

(** ** Python strings *)

Module PyStr.

(** [c in chars], for a character and the argument of [lstrip]/[rstrip]. *)
Fixpoint mem (c : ascii) (chars : string) : bool :=
  match chars with
  | EmptyString => false
  | String d rest => if Ascii.eqb c d then true else mem c rest
  end.

(** [str.lstrip(chars)]: drops leading characters that occur in [chars]. *)
Fixpoint lstrip (chars s : string) : string :=
  match s with
  | EmptyString => EmptyString
  | String c rest => if mem c chars then lstrip chars rest else s
  end.

(** [str.rstrip(chars)]: drops trailing characters that occur in [chars]. *)
Fixpoint rstrip (chars s : string) : string :=
  match s with
  | EmptyString => EmptyString
  | String c rest =>
      match rstrip chars rest with
      | EmptyString => if mem c chars then EmptyString else String c EmptyString
      | kept => String c kept
      end
  end.

(** [s.startswith(p)]. *)
Fixpoint startswith (s p : string) : bool :=
  match p, s with
  | EmptyString, _ => true
  | String a p', String b s' => if Ascii.eqb a b then startswith s' p' else false
  | String _ _, EmptyString => false
  end.

(** [s.endswith(p)]. *)
Fixpoint endswith (s p : string) : bool :=
  if String.eqb s p then true
  else match s with
       | EmptyString => false
       | String _ s' => endswith s' p
       end.

(** First and last character of a string, when it has one. *)
Definition first (s : string) : option ascii :=
  match s with EmptyString => None | String c _ => Some c end.

Fixpoint last (s : string) : option ascii :=
  match s with
  | EmptyString => None
  | String c EmptyString => Some c
  | String _ rest => last rest
  end.

(** Does [s] begin, or end, with a character of [chars]? *)
Definition starts_in (chars s : string) : bool :=
  match first s with Some c => mem c chars | None => false end.

Definition ends_in (chars s : string) : bool :=
  match last s with Some c => mem c chars | None => false end.

(** [s.split(sep)[-1]] for a one-character separator: what follows the
    last occurrence of [sep], or the whole string without one. *)
Fixpoint last_segment (sep : ascii) (s : string) : string :=
  match s with
  | EmptyString => EmptyString
  | String c rest =>
      if existsb (Ascii.eqb sep) (list_ascii_of_string rest) then last_segment sep rest
      else if Ascii.eqb c sep then rest
      else s
  end.

(** [s.capitalize()] is taken on ASCII letters. *)
Definition upper (c : ascii) : ascii :=
  let n := nat_of_ascii c in
  if (97 <=? n)%nat && (n <=? 122)%nat then ascii_of_nat (n - 32) else c.

Definition lower (c : ascii) : ascii :=
  let n := nat_of_ascii c in
  if (65 <=? n)%nat && (n <=? 90)%nat then ascii_of_nat (n + 32) else c.

Definition capitalize (s : string) : string :=
  match s with
  | EmptyString => EmptyString
  | String c rest =>
      String (upper c) (string_of_list_ascii (map lower (list_ascii_of_string rest)))
  end.

End PyStr.

(** ** Documents, exceptions and results *)

(** A decoded JSON/YAML value, as [json.loads] and [yaml.safe_load] return
    it; a Python [dict] with string keys is a finite map. *)
Inductive json : Type :=
  | JNull
  | JBool (b : bool)
  | JNum (n : Z)
  | JStr (s : string)
  | JList (l : list json)
  | JObj (m : gmap string json).

(** Python truth value of a decoded value ([if not profile]). *)
Definition truthy (v : json) : bool :=
  match v with
  | JNull => false
  | JBool b => b
  | JNum n => negb (n =? 0)
  | JStr s => negb (String.eqb s "")
  | JList l => match l with [] => false | _ => true end
  | JObj m => match map_to_list m with [] => false | _ => true end
  end.

(** Truth value of an optional string attribute ([None] and [""] are false). *)
Definition truthy_str (o : option string) : bool :=
  match o with
  | Some s => negb (String.eqb s "")
  | None => false
  end.

(** The exceptions that the module raises or lets through. *)
Inductive exn : Type :=
  | RuntimeError (msg : string)
  | NameError (name : string)
  | AttributeError (name : string)
  | TypeError (what : string)
  | NotFound (path : string)
  | DecodeError (path : string)
  | PluginError (plugin : string).

Inductive result (A : Type) : Type :=
  | Ok (a : A)
  | Raise (e : exn).
Arguments Ok {A} a.
Arguments Raise {A} e.

Definition is_raise {A} (r : result A) : Prop :=
  match r with Raise _ => True | Ok _ => False end.

(** What a Python function hands back: the functions of this module that
    have no [return] statement hand back [None]. *)
Inductive pyval : Type :=
  | VNone
  | VBool (b : bool).

(** ** The repository and the calls made on it *)

(** The data argument of [StoreData]: bytes with [raw=True], a document
    (that the manager encodes) otherwise. *)
Inductive payload : Type :=
  | Raw (bytes : string)
  | Doc (doc : json).

Inductive event : Type :=
  | EvMetadata (path : string)
  | EvGetData (path : string) (raw : bool)
  | EvStoreData (path : string) (data : payload)
  | EvListFiles
  | EvFetchPDB (guid pdb_filename : string)
  | EvParsePDB (guid profile_class : string)
  | EvConvertProfile (fullpath : string)
  | EvTransformProfile
  | EvBuildIndex (profile : string)
  | EvIndexer
  | EvLoadProfile (name : string)
  | EvFormat (fmt : string) (args : list json)
  | EvLog (fmt : string) (args : list json)
  | EvProgress (fmt : string) (args : list json)
  | EvConstruct (cls : string) (profile : string).

Record entry : Type := Entry {
  content : string;
  LastModified : Z
}.

Record world : Type := World {
  files : gmap string entry;
  clock : Z
}.

(** The collaborators that the module calls and that live elsewhere:
    [utils.PPrint], the decoder of the io manager, the wall clock, the
    [fetch_pdb], [parse_pdb], [convert_profile] and [build_index] plugins.
    A plugin that answers [None] here has raised. *)
Record Collaborators : Type := {
  PPrint : json → string;
  Decoder : string → option json;
  advance : Z → Z;
  GetAbsolutePathName : string → string;
  fetch_pdb : string → string → option string;
  parse_pdb : string → string → option json;
  ConvertProfile : string → gmap string entry → option json;
  build_index : json → gmap string entry → option json
}.

(** ** The monad of repository code *)

Definition M (A : Type) : Type := world → result A * world * list event.

Definition ret {A} (a : A) : M A := fun w => (Ok a, w, []).

Definition raise {A} (e : exn) : M A := fun w => (Raise e, w, []).

Definition bind {A B} (m : M A) (k : A → M B) : M B :=
  fun w =>
    match m w with
    | (Ok a, w1, t1) =>
        match k a w1 with
        | (r, w2, t2) => (r, w2, t1 ++ t2)
        end
    | (Raise e, w1, t1) => (Raise e, w1, t1)
    end.

Definition emit (ev : event) : M unit := fun w => (Ok (), w, [ev]).

Definition lift {A} (r : result A) : M A := fun w => (r, w, []).

(** A call to a plugin: the call is recorded, and a plugin that raised
    stops the caller. *)
Definition call_plugin {A} (name : string) (ev : event) (answer : option A) : M A :=
  fun w =>
    match answer with
    | Some x => (Ok x, w, [ev])
    | None => (Raise (PluginError name), w, [ev])
    end.

Notation "'let*' x := m 'in' k" := (bind m (fun x => k))
  (at level 10, x name, m at level 100, k at level 200, only parsing).
Notation "m ;;; k" := (bind m (fun _ => k))
  (at level 100, k at level 200, right associativity, only parsing).

(** [for x in l: acc = body(x, acc)], the loop variables in [acc]. *)
Fixpoint for_each {A S} (l : list A) (body : A → S → M S) (acc : S) : M S :=
  match l with
  | [] => ret acc
  | x :: rest => let* acc' := body x acc in for_each rest body acc'
  end.

Definition outcome {A} (x : result A * world * list event) : result A := x.1.1.
Definition final {A} (x : result A * world * list event) : world := x.1.2.
Definition trace {A} (x : result A * world * list event) : list event := x.2.

Definition outcome_value {A} (x : result A * world * list event) : option A :=
  match outcome x with Ok a => Some a | Raise _ => None end.

(** A call to [StoreData]. *)
Definition is_store (ev : event) : bool :=
  match ev with EvStoreData _ _ => true | _ => false end.

(** ** Arguments of a plugin *)

(** The fields of a manifest entry besides [type]; [AttributeDict] answers
    [None] for an attribute that was not given. *)
Record Kwargs : Type := {
  transforms : option (list (string * json));
  index : option string;
  guids : string;
  profile_class : option string;
  source : string;
  sources : list string
}.

(** [self.args] of a plugin, as [render] builds it. *)
Record Args : Type := {
  profile_name : string;
  force_build_index : bool;
  kwargs : Kwargs
}.

(** One entry of [config.yaml]. *)
Record Target : Type := {
  type : option string;
  fields : Kwargs
}.

(** The classes that derive from [RepositoryPlugin], and the base class. *)
Inductive handler_cls : Type :=
  | RepositoryPlugin
  | WindowsGUIDProfile
  | CopyAndTransform
  | OSXProfile
  | LinuxProfile.

Definition cls_name (c : handler_cls) : string :=
  match c with
  | RepositoryPlugin => "RepositoryPlugin"
  | WindowsGUIDProfile => "WindowsGUIDProfile"
  | CopyAndTransform => "CopyAndTransform"
  | OSXProfile => "OSXProfile"
  | LinuxProfile => "LinuxProfile"
  end.

(** ** Transforms *)

(** [profile[key] = v]: only a [dict] takes a string key. *)
Definition setitem (profile : json) (key : string) (v : json) : result json :=
  match profile with
  | JObj m => Ok (JObj (<[key := v]> m))
  | _ => Raise (TypeError "object does not support item assignment")
  end.

(** The loop of [TransformProfile] over [transforms.items()]. *)
Fixpoint apply_transforms (items : list (string * json)) (profile : json)
  : result json :=
  match items with
  | [] => Ok profile
  | (transform, args) :: rest =>
      if String.eqb transform "merge" then
        match setitem profile "$MERGE" args with
        | Ok profile' => apply_transforms rest profile'
        | Raise e => Raise e
        end
      else Raise (RuntimeError ("Unknown transform " +:+ transform))
  end.

(** Paths that the plugins build. *)
Definition pdb_path (guid : string) : string := "src/pdb/" +:+ guid +:+ ".pdb".
Definition profile_path (name guid : string) : string := name +:+ "/" +:+ guid.
Definition index_path (name : string) : string := name +:+ "/index".
Definition osx_profile_name (source : string) : string :=
  "OSX/" +:+ PyStr.last_segment "/" source.

Arguments pdb_path : simpl never.
Arguments profile_path : simpl never.
Arguments index_path : simpl never.
Arguments osx_profile_name : simpl never.

(** [LinuxProfile.Build], line 222. *)
Definition linux_profile_id (source_profile : string) : string :=
  PyStr.rstrip ".zip" (PyStr.lstrip "src/" source_profile).

Definition is_linux_source (source_profile : string) : bool :=
  PyStr.startswith source_profile "src/Linux" && PyStr.endswith source_profile ".zip".

Arguments linux_profile_id : simpl never.
Arguments is_linux_source : simpl never.

(** [changed_files and self.args.index or self.args.force_build_index] *)
Definition index_wanted (changed_files : bool) (a : Args) : bool :=
  (changed_files && truthy_str (index (kwargs a))) || force_build_index a.

(** [changed_files and self.args.index] *)
Definition index_wanted_osx (changed_files : bool) (a : Args) : bool :=
  changed_files && truthy_str (index (kwargs a)).

Section Repository.

Context (X : Collaborators).

(** *** The store *)

(** Modelled from the spec: the io manager ([rekall.io_manager]) is not
    part of the module. [Metadata(path)] answers the metadata of an entry
    or nothing. *)
Definition Metadata (path : string) : M (option Z) :=
  fun w => (Ok (LastModified <$> files w !! path), w, [EvMetadata path]).

(** Modelled from the spec: [GetData(path, raw=True)] of the io manager,
    which fails when the entry is absent. *)
Definition GetDataRaw (path : string) : M string :=
  fun w =>
    match files w !! path with
    | Some e => (Ok (content e), w, [EvGetData path true])
    | None => (Raise (NotFound path), w, [EvGetData path true])
    end.

(** Modelled from the spec: [GetData(path)] of the io manager, which
    fails when the entry is absent and decodes what it finds with
    [RepositoryManager.Decoder]. *)
Definition GetData (path : string) : M json :=
  fun w =>
    match files w !! path with
    | Some e =>
        match Decoder X (content e) with
        | Some doc => (Ok doc, w, [EvGetData path false])
        | None => (Raise (DecodeError path), w, [EvGetData path false])
        end
    | None => (Raise (NotFound path), w, [EvGetData path false])
    end.

(** [RepositoryManager.Encoder] *)
Definition Encoder (data : json) : string := PPrint X data.

Definition encode (data : payload) : string :=
  match data with
  | Raw bytes => bytes
  | Doc doc => Encoder doc
  end.

(** Modelled from the spec: [StoreData(path, data)] of the io manager,
    which replaces the entry and refreshes its modification time. *)
Definition StoreData (path : string) (data : payload) : M unit :=
  fun w =>
    let now := advance X (clock w) in
    (Ok (),
     {| files := <[path := Entry (encode data) now]> (files w); clock := now |},
     [EvStoreData path data]).

(** Modelled from the spec: [ListFiles()] of the io manager, the paths of
    the entries. *)
Definition ListFiles : M (list string) :=
  fun w => (Ok (map_to_list (files w)).*1, w, [EvListFiles]).

(** The files that a plugin finds when it reads the repository directory
    itself. *)
Definition snapshot : M (gmap string entry) := fun w => (Ok (files w), w, []).

(** *** [RepositoryPlugin] *)

Definition TransformProfile (a : Args) (profile : json) : M json :=
  emit EvTransformProfile ;;;
  lift (apply_transforms (default [] (transforms (kwargs a))) profile).

(** [self.args.index] holds a path or [None]; the io manager takes a
    path. *)
Definition GetData_index (a : Args) : M json :=
  match index (kwargs a) with
  | Some path => GetData path
  | None => raise (TypeError "path is None")
  end.

Definition BuildIndex (a : Args) : M unit :=
  emit (EvBuildIndex (profile_name a)) ;;;
  let* spec := GetData_index a in
  let* repository := snapshot in
  let* idx := call_plugin "build_index" EvIndexer (build_index X spec repository) in
  StoreData (index_path (profile_name a)) (Doc idx).

Definition opt_str (o : option string) : json :=
  match o with Some s => JStr s | None => JNull end.

(** *** [WindowsGUIDProfile] *)

(** [self._RunPlugin(plugin_name, ...)], lines 92 and 110. The module
    defines no [_RunPlugin] and [RepositoryPlugin] derives from [object]:
    looking the attribute up raises [AttributeError], before the arguments
    are evaluated and before any plugin runs. *)
Definition _RunPlugin (plugin_name : string) : M unit :=
  raise (AttributeError "_RunPlugin").

(** After the call of line 92: the file that the plugin left in the
    temporary directory is read and stored. *)
Definition FetchPDB (a : Args) (guid pdb_filename : string) : M unit :=
  _RunPlugin "fetch_pdb" ;;;
  let* data := call_plugin "fetch_pdb" (EvFetchPDB guid pdb_filename)
                 (fetch_pdb X guid pdb_filename) in
  StoreData (pdb_path guid) (Raw data).

(** The raw file is read and written to the temporary directory before
    the call of line 110; what follows the call reads what the plugin
    left. *)
Definition ParsePDB (a : Args) (guid original_pdb_filename : string) : M unit :=
  let* data := GetDataRaw (pdb_path guid) in
  let profile_class :=
    if truthy_str (profile_class (kwargs a))
    then default "" (profile_class (kwargs a))
    else PyStr.capitalize original_pdb_filename in
  _RunPlugin "parse_pdb" ;;;
  let* profile_data := call_plugin "parse_pdb" (EvParsePDB guid profile_class)
                         (parse_pdb X data profile_class) in
  let* profile_data := TransformProfile a profile_data in
  StoreData (profile_path (profile_name a) guid) (Doc profile_data).

(** The body of the inner loop, lines 126-142. *)
Definition build_guid (a : Args) (pdb_filename guid : string) (changed_files : bool)
  : M bool :=
  let* md := Metadata (profile_path (profile_name a) guid) in
  match md with
  | Some _ => ret changed_files
  | None =>
      emit (EvFormat "Building profile {0}/{1}\n" [JStr (profile_name a); JStr guid]) ;;;
      let* raw_md := Metadata (pdb_path guid) in
      match raw_md with
      | Some _ => ret ()
      | None => FetchPDB a guid pdb_filename
      end ;;;
      ParsePDB a guid pdb_filename ;;;
      ret true
  end.

(** [guid_file.iteritems()], and the list of guids of one item. *)
Definition iteritems (doc : json) : result (list (string * json)) :=
  match doc with
  | JObj m => Ok (map_to_list m)
  | _ => Raise (TypeError "object has no attribute iteritems")
  end.

Fixpoint strings_of (l : list json) : result (list string) :=
  match l with
  | [] => Ok []
  | JStr s :: rest =>
      match strings_of rest with
      | Ok ss => Ok (s :: ss)
      | Raise e => Raise e
      end
  | _ :: _ => Raise (TypeError "guid is not a string")
  end.

Definition guid_list (doc : json) : result (list string) :=
  match doc with
  | JList l => strings_of l
  | _ => Raise (TypeError "guids is not a list")
  end.

(** The two nested loops of [WindowsGUIDProfile.Build]. *)
Definition build_pdb (a : Args) (item : string * json) (changed_files : bool) : M bool :=
  let* ids := lift (guid_list item.2) in
  for_each ids (build_guid a item.1) changed_files.

Definition windows_loop (a : Args) : M bool :=
  let* guid_file := GetData (guids (kwargs a)) in
  let* items := lift (iteritems guid_file) in
  for_each items (build_pdb a) false.

Definition windows_Build (a : Args) : M pyval :=
  let* changed_files := windows_loop a in
  (if index_wanted changed_files a then
     emit (EvFormat "Building index for profile {0} from {1}\n"
             [JStr (profile_name a); opt_str (index (kwargs a))]) ;;;
     BuildIndex a
   else ret ()) ;;;
  ret VNone.

(** *** [CopyAndTransform] *)

(** The test of line 158; [source_metadata["LastModified"]] is only
    evaluated when the profile has metadata. *)
Definition copy_stale (profile_metadata source_metadata : option Z) : result bool :=
  match profile_metadata with
  | None => Ok true
  | Some target_time =>
      match source_metadata with
      | Some source_time => Ok (target_time <? source_time)
      | None => Raise (TypeError "source metadata has no LastModified")
      end
  end.

Definition copy_Build (a : Args) : M pyval :=
  let* profile_metadata := Metadata (profile_name a) in
  let* source_metadata := Metadata (source (kwargs a)) in
  let* stale := lift (copy_stale profile_metadata source_metadata) in
  (if stale : bool then
     let* data := GetData (source (kwargs a)) in
     let* data := TransformProfile a data in
     StoreData (profile_name a) (Raw (PPrint X data)) ;;;
     emit (EvFormat "Building profile {0} from {1}\n"
             [JStr (profile_name a); JStr (source (kwargs a))])
   else ret ()) ;;;
  ret VNone.

(** *** [OSXProfile] *)

Definition osx_body (a : Args) (source : string) (changed_files : bool) : M bool :=
  let profile_name := osx_profile_name source in
  let* profile_metadata := Metadata profile_name in
  match profile_metadata with
  | Some _ => ret changed_files
  | None =>
      let* data := GetData source in
      let* data := TransformProfile a data in
      StoreData profile_name (Raw (PPrint X data)) ;;;
      emit (EvFormat "Building profile {0} from {1}\n" [JStr profile_name; JStr source]) ;;;
      ret true
  end.

Definition osx_loop (a : Args) : M bool :=
  for_each (sources (kwargs a)) (osx_body a) false.

Definition osx_Build (a : Args) : M pyval :=
  let* changed_files := osx_loop a in
  (if index_wanted_osx changed_files a then
     emit (EvFormat "Building index for profile {0} from {1}\n"
             [JStr (profile_name a); opt_str (index (kwargs a))]) ;;;
     BuildIndex a
   else ret ()) ;;;
  ret VNone.

(** *** [LinuxProfile] *)

(** The loop variables [changed_files], [total_profiles], [new_profiles]. *)
Record linux_vars : Type := LinuxVars {
  changed_files : bool;
  total_profiles : Z;
  new_profiles : Z
}.

(** The body of the scan loop, lines 218-248. The name [profile_path] of
    line 242 is bound nowhere in the module: evaluating the arguments of
    the logging call raises [NameError]. *)
Definition linux_body (a : Args) (source_profile : string) (v : linux_vars)
  : M linux_vars :=
  if is_linux_source source_profile then
    let total := total_profiles v + 1 in
    let profile_id := linux_profile_id source_profile in
    let* md := Metadata profile_id in
    match md with
    | Some _ => ret (LinuxVars (changed_files v) total (new_profiles v))
    | None =>
        emit (EvProgress "Found new raw Linux profile %s. Converting..." [JStr profile_id]) ;;;
        emit (EvLog "Found new raw Linux profile %s" [JStr profile_id]) ;;;
        let profile_fullpath := GetAbsolutePathName X source_profile in
        let* repository := snapshot in
        let* profile := call_plugin "convert_profile" (EvConvertProfile profile_fullpath)
                          (ConvertProfile X profile_fullpath repository) in
        if negb (truthy profile) then
          raise (NameError "profile_path")
        else
          StoreData profile_id (Doc profile) ;;;
          ret (LinuxVars true total (new_profiles v + 1))
    end
  else ret v.

Definition linux_loop (a : Args) : M linux_vars :=
  emit (EvLoadProfile "Linux/index") ;;;
  let* listing := ListFiles in
  for_each listing (linux_body a) (LinuxVars false 0 0).

Definition linux_Build (a : Args) : M pyval :=
  let* v := linux_loop a in
  emit (EvLog "Found %d profiles. %d are new."
          [JNum (total_profiles v); JNum (new_profiles v)]) ;;;
  (if index_wanted (changed_files v) a then BuildIndex a else ret ()) ;;;
  ret VNone.

(** *** Dispatch on the class of the plugin *)

(** [handler.Build(renderer)]; the base class has an empty [Build]. *)
Definition Build (cls : handler_cls) (a : Args) : M pyval :=
  match cls with
  | RepositoryPlugin => ret VNone
  | WindowsGUIDProfile => windows_Build a
  | CopyAndTransform => copy_Build a
  | OSXProfile => osx_Build a
  | LinuxProfile => linux_Build a
  end.

(** *** [ManageRepository.render] *)

(** [self.build_targets and profile_name not in self.build_targets] *)
Definition filtered_out (build_targets : option (list string)) (name : string) : bool :=
  match build_targets with
  | None | Some [] => false
  | Some wanted => negb (existsb (String.eqb name) wanted)
  end.

(** Modelled from the spec: the registry ([rekall.registry]) is not part
    of the module; [classes] maps the names registered at process start
    to their plugin classes. *)
Definition resolve (classes : gmap string handler_cls) (handler_type : string)
  : option handler_cls :=
  classes !! handler_type.

Definition render_target (classes : gmap string handler_cls)
    (build_targets : option (list string)) (force : bool)
    (item : string * Target) (_ : unit) : M unit :=
  let '(profile_name, kw) := item in
  if filtered_out build_targets profile_name then ret ()
  else
    if negb (truthy_str (type kw)) then
      raise (RuntimeError ("Unspecified repository handler for profile " +:+ profile_name))
    else
      let handler_type := default "" (type kw) in
      match resolve classes handler_type with
      | None => raise (RuntimeError ("Unknown repository handler " +:+ handler_type))
      | Some handler_cls =>
          emit (EvConstruct (cls_name handler_cls) profile_name) ;;;
          Build handler_cls
            {| profile_name := profile_name; force_build_index := force;
               kwargs := fields kw |} ;;;
          ret ()
      end.

Definition render (classes : gmap string handler_cls)
    (build_targets : option (list string)) (force : bool)
    (config_file : list (string * Target)) : M unit :=
  for_each config_file (render_target classes build_targets force) ().

End Repository.

(** ** Predicates on runs *)

(** Every call that [m] makes satisfies [P], from any state. *)
Definition emits {A} (P : event → Prop) (m : M A) : Prop :=
  ∀ w, Forall P (trace (m w)).


(** From a state in [I], [m] ends in [I] and makes calls in [P] only. *)
Definition holds {A} (I : world → Prop) (P : event → Prop) (m : M A) : Prop :=
  ∀ w, I w → I (final (m w)) ∧ Forall P (trace (m w)).

Definition is_index_build (ev : event) : bool :=
  match ev with EvBuildIndex _ => true | _ => false end.


(** A call that builds or changes something: a store, a fetch, a
    conversion, a transform, an index build. *)
Definition is_work (ev : event) : bool :=
  match ev with
  | EvStoreData _ _ | EvFetchPDB _ _ | EvParsePDB _ _ | EvConvertProfile _
  | EvTransformProfile | EvBuildIndex _ | EvIndexer => true
  | _ => false
  end.

(** The first name of a transform spec that is not [merge]. *)
Fixpoint unknown_transform (items : list (string * json)) : option string :=
  match items with
  | [] => None
  | (transform, _) :: rest =>
      if String.eqb transform "merge" then unknown_transform rest else Some transform
  end.

(** Every path of [w] is still there in [w']. *)
Definition grows (w w' : world) : Prop :=
  ∀ path, is_Some (files w !! path) → is_Some (files w' !! path).


(** The guids that a decoded guid file lists. *)
Definition guids_of (doc : json) : list string :=
  match iteritems doc with
  | Ok items =>
      concat (map (λ item : string * json,
                     match guid_list item.2 with Ok ids => ids | Raise _ => [] end) items)
  | Raise _ => []
  end.

(** The raw file of [guid] is there and its profile is not built yet. *)
Definition pending (a : Args) (guid : string) (raw : entry) (w : world) : Prop :=
  files w !! pdb_path guid = Some raw
  ∧ files w !! profile_path (profile_name a) guid = None.

(** The conversion of the raw file [raw] of [guid] shows in the calls [t]:
    the converter was called, and what it gave was transformed and stored
    as the profile of [guid]. *)
Definition converted_in (X : Collaborators) (a : Args) (guid : string) (raw : entry)
    (t : list event) : Prop :=
  ∃ cls converted doc',
    parse_pdb X (content raw) cls = Some converted
    ∧ apply_transforms (default [] (transforms (kwargs a))) converted = Ok doc'
    ∧ EvParsePDB guid cls ∈ t
    ∧ EvStoreData (profile_path (profile_name a) guid) (Doc doc') ∈ t.

Definition fetches (guid : string) (ev : event) : bool :=
  match ev with
  | EvFetchPDB guid' _ => String.eqb guid' guid
  | _ => false
  end.

(** ** Claims of the specification that the code is compared with *)




(** The error of an unknown transform, or the [TypeError] of a [merge] on a
    profile that is not a [dict]. *)
Definition transform_error (name : string) (e : exn) : Prop :=
  e = RuntimeError ("Unknown transform " +:+ name) ∨ ∃ what, e = TypeError what.

(** The staleness rule of the copying plugin as the specification words
    it: the target has no metadata, or the source is strictly newer. *)
Definition spec_stale (target_time : option Z) (source_time : Z) : Prop :=
  target_time = None ∨ ∃ t, target_time = Some t ∧ source_time > t.

(** The claim that [Build] answers a boolean that tells whether the call
    changed an artifact, for one call. *)
Definition reports_change (X : Collaborators) (cls : handler_cls) (a : Args) (w : world)
  : Prop :=
  ∀ v, outcome (Build X cls a w) = Ok v →
       ∃ changed : bool,
         v = VBool changed
         ∧ (changed = true ↔ ∃ path data, EvStoreData path data ∈ trace (Build X cls a w)).

(** ** Predicates for the properties of the plugins *)

(** The target that [render] does not skip. *)
Definition selected (build_targets : option (list string)) (item : string * Target) : bool :=
  negb (filtered_out build_targets item.1).


(** A store of a document, as opposed to raw bytes. *)
Definition is_doc_store (ev : event) : bool :=
  match ev with EvStoreData _ (Doc _) => true | _ => false end.

(** The arguments [a] with another force flag. *)
Definition with_force (force : bool) (a : Args) : Args :=
  {| profile_name := profile_name a; force_build_index := force; kwargs := kwargs a |}.

(** Two repositories with the same paths and the same bytes under them,
    whatever their modification times and clocks. *)
Definition same_content (w w' : world) : Prop :=
  ∀ path, content <$> files w !! path = content <$> files w' !! path.

(** [m] and [m'] do the same on repositories with the same content. *)
Definition agree {A} (m m' : M A) : Prop :=
  ∀ w w', same_content w w' →
    outcome (m w) = outcome (m' w')
    ∧ trace (m w) = trace (m' w')
    ∧ same_content (final (m w)) (final (m' w')).

(** Does [s] hold the character [sep]? *)
Definition has_char (sep : ascii) (s : string) : bool :=
  existsb (Ascii.eqb sep) (list_ascii_of_string s).

(** The converter is called for [guid]. *)
Definition parses (guid : string) (ev : event) : bool :=
  match ev with
  | EvParsePDB guid' _ => String.eqb guid' guid
  | _ => false
  end.

(** ** A small repository to run the code on *)

Module Demo.

Definition pprint (doc : json) : string :=
  match doc with
  | JStr s => s
  | JObj m => match m !! "$MERGE" with Some _ => "{merged}" | None => "{}" end
  | _ => "null"
  end.

Definition guid_file : json := JObj {["ntkrnlmp.pdb" := JList [JStr "G1"; JStr "G2"]]}.

Definition decode (bytes : string) : option json :=
  if String.eqb bytes "guids" then Some guid_file
  else if String.eqb bytes "{}" then Some (JObj ∅)
  else if String.eqb bytes "{merged}" then Some (JObj {["$MERGE" := JNull]})
  else None.

Definition convert (fullpath : string) (repository : gmap string entry) : option json :=
  if String.eqb fullpath "/repo/src/Linux/bad.zip" then Some JNull
  else Some (JObj {["$METADATA" := JStr "Linux"]}).

Definition X : Collaborators := {|
  PPrint := pprint;
  Decoder := decode;
  advance := λ t, t + 1;
  GetAbsolutePathName := λ path, "/repo/" +:+ path;
  fetch_pdb := λ guid pdb_filename, Some ("pdb:" +:+ guid);
  parse_pdb := λ data profile_class, Some (JObj {["class" := JStr profile_class]});
  ConvertProfile := convert;
  build_index := λ spec repository, Some (JObj ∅)
|}.

Definition kw : Kwargs := {|
  transforms := None; index := None; guids := "nt/guids";
  profile_class := None; source := "src/base.json"; sources := ["src/OSX/10.9.json"]
|}.

Definition kw_index : Kwargs := {|
  transforms := None; index := Some "src/index.yaml"; guids := "nt/guids";
  profile_class := None; source := "src/base.json"; sources := ["src/OSX/10.9.json"]
|}.

Definition kw_rename : Kwargs := {|
  transforms := Some [("merge", JStr "base"); ("rename", JNull)]; index := None;
  guids := "nt/guids"; profile_class := None; source := "src/base.json";
  sources := ["src/OSX/10.9.json"]
|}.

Definition args (name : string) (force : bool) (k : Kwargs) : Args :=
  {| profile_name := name; force_build_index := force; kwargs := k |}.

Definition store (l : list (string * entry)) (now : Z) : world :=
  World (list_to_map l) now.

(** The registry with the classes of the module under their names. *)
Definition classes : gmap string handler_cls :=
  list_to_map
    (map (λ c, (cls_name c, c))
       [RepositoryPlugin; WindowsGUIDProfile; CopyAndTransform; OSXProfile; LinuxProfile]).

Definition target (handler_type : option string) (k : Kwargs) : Target :=
  {| type := handler_type; fields := k |}.

End Demo.

(** * Properties *)

Example lstrip_src : PyStr.lstrip "src/" "src/Linux/a.zip" = "Linux/a.zip".
Proof. reflexivity. Qed.

Example rstrip_zip : PyStr.rstrip ".zip" "Linux/a.zip" = "Linux/a".
Proof. reflexivity. Qed.

Example last_segment_ex : PyStr.last_segment "/" "src/OSX/10.9.json" = "10.9.json".
Proof. reflexivity. Qed.

(** ** Stripping character sets *)

Lemma append_cons c s t : String c s +:+ t = String c (s +:+ t).
Proof. reflexivity. Qed.

Lemma append_nil t : "" +:+ t = t.
Proof. reflexivity. Qed.

Section Strip.

Variable chars : string.

Lemma rstrip_fixed s : PyStr.ends_in chars s = false → PyStr.rstrip chars s = s.
Proof.
  induction s as [|c rest IH]; [done|].
  destruct rest as [|d rest'].
  - unfold PyStr.ends_in; simpl. by intros ->.
  - intros Hlast. simpl in *. unfold PyStr.ends_in in *. simpl in *.
    by rewrite (IH Hlast).
Qed.

Lemma rstrip_app_erased s t :
  PyStr.rstrip chars t = "" → PyStr.rstrip chars (s +:+ t) = PyStr.rstrip chars s.
Proof.
  intros Ht. induction s as [|c rest IH]; [done|].
  rewrite append_cons. simpl. by rewrite IH.
Qed.

Lemma lstrip_fixed s : PyStr.starts_in chars s = false → PyStr.lstrip chars s = s.
Proof.
  destruct s as [|c rest]; [done|].
  unfold PyStr.starts_in; simpl. by intros ->.
Qed.

(** What [lstrip] removes is made of [chars], and what it leaves does not
    begin with one. *)
Lemma lstrip_spec s :
  ∃ dropped, s = dropped +:+ PyStr.lstrip chars s
    ∧ Forall (λ c, PyStr.mem c chars = true) (list_ascii_of_string dropped)
    ∧ PyStr.starts_in chars (PyStr.lstrip chars s) = false.
Proof.
  induction s as [|c rest (dropped & Heq & Hall & Hfst)].
  - by exists "".
  - simpl. destruct (PyStr.mem c chars) eqn:Hc.
    + exists (String c dropped).
      split_and!; [rewrite append_cons; congruence | by constructor | done].
    + exists "". split_and!; [done | constructor |].
      unfold PyStr.starts_in. by simpl.
Qed.

Lemma rstrip_spec s :
  ∃ dropped, s = PyStr.rstrip chars s +:+ dropped
    ∧ Forall (λ c, PyStr.mem c chars = true) (list_ascii_of_string dropped)
    ∧ PyStr.ends_in chars (PyStr.rstrip chars s) = false.
Proof.
  induction s as [|c rest (dropped & Heq & Hall & Hlst)].
  - by exists "".
  - simpl. destruct (PyStr.rstrip chars rest) as [|d kept] eqn:Hrest.
    + destruct (PyStr.mem c chars) eqn:Hc.
      * exists (String c dropped). rewrite append_nil in Heq.
        split_and!; [rewrite append_nil; congruence | by constructor | done].
      * exists dropped. rewrite append_nil in Heq.
        split_and!; [rewrite append_cons, append_nil; congruence | done |].
        unfold PyStr.ends_in. cbn. by rewrite Hc.
    + exists dropped. split_and!; [rewrite !append_cons in *; congruence | done |].
      unfold PyStr.ends_in in *. cbn in *. done.
Qed.

(** Characters of [chars] in front of a string, or behind it, are
    stripped with the rest. *)
Lemma lstrip_app_dropped b s :
  Forall (λ c, PyStr.mem c chars = true) (list_ascii_of_string b) →
  PyStr.lstrip chars (b +:+ s) = PyStr.lstrip chars s.
Proof.
  induction b as [|c b IH]; [done|]. simpl. intros [Hc Hrest]%Forall_cons.
  rewrite ?append_cons. simpl. rewrite Hc. by apply IH.
Qed.

Lemma rstrip_dropped a :
  Forall (λ c, PyStr.mem c chars = true) (list_ascii_of_string a) →
  PyStr.rstrip chars a = "".
Proof.
  induction a as [|c a IH]; [done|]. simpl. intros [Hc Hrest]%Forall_cons.
  by rewrite IH, Hc.
Qed.

Lemma lstrip_app s t :
  PyStr.lstrip chars (s +:+ t)
  = match PyStr.lstrip chars s with
    | EmptyString => PyStr.lstrip chars t
    | kept => kept +:+ t
    end.
Proof.
  induction s as [|c s IH]; [done|].
  rewrite append_cons. simpl. by destruct (PyStr.mem c chars).
Qed.

End Strip.

Lemma starts_in_rstrip chars chars' s :
  PyStr.starts_in chars (PyStr.rstrip chars' s) = true → PyStr.starts_in chars s = true.
Proof.
  destruct s as [|c s]; [done|]. unfold PyStr.starts_in. simpl.
  destruct (PyStr.rstrip chars' s); [|done].
  by destruct (PyStr.mem c chars').
Qed.

(** The two sets of line 222 share no character. *)
Lemma zip_not_src (c : ascii) : PyStr.mem c ".zip" = true → PyStr.mem c "src/" = false.
Proof.
  simpl.
  destruct (Ascii.eqb_spec c "."%char) as [->|_]; [done|].
  destruct (Ascii.eqb_spec c "z"%char) as [->|_]; [done|].
  destruct (Ascii.eqb_spec c "i"%char) as [->|_]; [done|].
  by destruct (Ascii.eqb_spec c "p"%char) as [->|_].
Qed.

Lemma linux_profile_id_of_stem (stem : string) :
  linux_profile_id ("src/" +:+ stem +:+ ".zip") = linux_profile_id stem.
Proof.
  unfold linux_profile_id.
  change (PyStr.lstrip "src/" ("src/" +:+ stem +:+ ".zip"))
    with (PyStr.lstrip "src/" (stem +:+ ".zip")).
  rewrite lstrip_app.
  destruct (PyStr.lstrip "src/" stem) as [|c kept]; [done|].
  by rewrite rstrip_app_erased.
Qed.

Lemma linux_profile_id_split (path : string) :
  ∃ before after,
    path = before +:+ linux_profile_id path +:+ after
    ∧ Forall (λ c, PyStr.mem c "src/" = true) (list_ascii_of_string before)
    ∧ Forall (λ c, PyStr.mem c ".zip" = true) (list_ascii_of_string after)
    ∧ PyStr.starts_in "src/" (linux_profile_id path) = false
    ∧ PyStr.ends_in ".zip" (linux_profile_id path) = false.
Proof.
  unfold linux_profile_id.
  destruct (lstrip_spec "src/" path) as (before & Hb & Hball & Hfirst).
  destruct (rstrip_spec ".zip" (PyStr.lstrip "src/" path)) as (after & Ha & Haall & Hend).
  exists before, after. split_and!; try done.
  - by rewrite <- Ha.
  - destruct (PyStr.starts_in "src/" (PyStr.rstrip ".zip" (PyStr.lstrip "src/" path)))
      eqn:Hs; [|done].
    apply starts_in_rstrip in Hs. congruence.
Qed.

(** C10. The id that [LinuxProfile.Build] derives from a source path is the
    path without its leading characters among [s r c /] and without its
    trailing characters among [. z i p]: what is dropped on either side is
    made of these characters, the id neither begins with one of the first
    nor ends with one of the second, and it is the only string of which
    this can be said. So for every path [src/<stem>.zip] the id is the
    stem exactly when the stem neither begins with one of the first nor
    ends with one of the second; for every other stem the id is not the
    stem, that removing the prefix and the suffix would give, but the stem
    with more characters dropped. [src/src/x.zip] gives [x] and not
    [src/x], [src/crash.zip] gives [ash], [src/Linux/gzip.zip] gives
    [Linux/g]. *)
Theorem linux_profile_id_strips_character_sets :
  (∀ path, ∃ before after,
      path = before +:+ linux_profile_id path +:+ after
      ∧ Forall (λ c, PyStr.mem c "src/" = true) (list_ascii_of_string before)
      ∧ Forall (λ c, PyStr.mem c ".zip" = true) (list_ascii_of_string after)
      ∧ PyStr.starts_in "src/" (linux_profile_id path) = false
      ∧ PyStr.ends_in ".zip" (linux_profile_id path) = false)
  ∧ (∀ path before id after,
      path = before +:+ id +:+ after →
      Forall (λ c, PyStr.mem c "src/" = true) (list_ascii_of_string before) →
      Forall (λ c, PyStr.mem c ".zip" = true) (list_ascii_of_string after) →
      PyStr.starts_in "src/" id = false →
      PyStr.ends_in ".zip" id = false →
      linux_profile_id path = id)
  ∧ (∀ stem,
      linux_profile_id ("src/" +:+ stem +:+ ".zip") = stem
      ↔ PyStr.starts_in "src/" stem = false ∧ PyStr.ends_in ".zip" stem = false)
  ∧ (∀ stem, ∃ before after,
      stem = before +:+ linux_profile_id ("src/" +:+ stem +:+ ".zip") +:+ after
      ∧ Forall (λ c, PyStr.mem c "src/" = true) (list_ascii_of_string before)
      ∧ Forall (λ c, PyStr.mem c ".zip" = true) (list_ascii_of_string after))
  ∧ linux_profile_id "src/src/x.zip" = "x"
  ∧ linux_profile_id "src/crash.zip" = "ash"
  ∧ linux_profile_id "src/Linux/gzip.zip" = "Linux/g"
  ∧ linux_profile_id "src/Linux/gzip.zip.zip" = "Linux/g".
Proof.
  split; [exact linux_profile_id_split|].
  split.
  { intros path before id after -> Hbefore Hafter Hfirst Hlast.
    unfold linux_profile_id. rewrite lstrip_app_dropped by done.
    destruct id as [|c id].
    - rewrite append_nil, lstrip_fixed; [by apply rstrip_dropped|].
      destruct after as [|d after]; [done|].
      apply Forall_cons in Hafter as [Hd _]. by apply zip_not_src.
    - rewrite lstrip_fixed by done.
      rewrite rstrip_app_erased by (by apply rstrip_dropped).
      by apply rstrip_fixed. }
  split.
  { intros stem. rewrite linux_profile_id_of_stem. split.
    - intros Hid.
      destruct (linux_profile_id_split stem) as (_ & _ & _ & _ & _ & Hfirst & Hlast).
      by rewrite Hid in Hfirst, Hlast.
    - intros [Hfirst Hlast]. unfold linux_profile_id.
      rewrite lstrip_fixed by done. by apply rstrip_fixed. }
  split.
  { intros stem. rewrite linux_profile_id_of_stem.
    destruct (linux_profile_id_split stem) as (before & after & Heq & Hb & Ha & _).
    by exists before, after. }
  by split_and!.
Qed.

Lemma linux_profile_id_strips_character_sets_witness :
  linux_profile_id ("src/" +:+ "Linux/Ubuntu-3.13" +:+ ".zip") = "Linux/Ubuntu-3.13"
  ∧ linux_profile_id "src/src/x.zip" = "x".
Proof.
  split.
  - apply (proj1 (proj2 (proj2 linux_profile_id_strips_character_sets))
             "Linux/Ubuntu-3.13").
    by split.
  - exact (proj1 (proj2 (proj2 (proj2 (proj2 linux_profile_id_strips_character_sets))))).
Defined.

(** ** Transforms *)

Lemma apply_merge (args : json) (m : gmap string json) :
  apply_transforms [("merge", args)] (JObj m) = Ok (JObj (<["$MERGE" := args]> m)).
Proof. reflexivity. Qed.

(** C7. With [merge] as the only transform, [TransformProfile] answers the
    document with the key [$MERGE] set to the arguments of the transform,
    every other key as it was; on [{"x": 2}] with arguments [{"a": 1}] the
    answer is [{"x": 2, "$MERGE": {"a": 1}}]. *)
Theorem merge_sets_reserved_key :
  (∀ (a : Args) (w : world) (m : gmap string json) (args : json),
      transforms (kwargs a) = Some [("merge", args)] →
      ∃ m' : gmap string json,
        TransformProfile a (JObj m) w = (Ok (JObj m'), w, [EvTransformProfile])
        ∧ m' !! "$MERGE" = Some args
        ∧ ∀ key, key ≠ "$MERGE" → m' !! key = m !! key)
  ∧ apply_transforms [("merge", JObj {["a" := JNum 1]})] (JObj {["x" := JNum 2]})
    = Ok (JObj {["x" := JNum 2; "$MERGE" := JObj {["a" := JNum 1]}]}).
Proof.
  split.
  - intros a w m args Hspec. exists (<["$MERGE" := args]> m). split_and!.
    + unfold TransformProfile, bind, emit, lift. rewrite Hspec. reflexivity.
    + apply lookup_insert_eq.
    + intros key Hkey. by apply lookup_insert_ne.
  - rewrite apply_merge. vm_compute. reflexivity.
Qed.

Lemma merge_sets_reserved_key_witness :
  let a := {| profile_name := "nt"; force_build_index := false;
              kwargs := {| transforms := Some [("merge", JStr "base")]; index := None;
                           guids := ""; profile_class := None; source := "";
                           sources := [] |} |} in
  ∃ m' : gmap string json,
    TransformProfile a (JObj ∅) (World ∅ 0) = (Ok (JObj m'), World ∅ 0, [EvTransformProfile])
    ∧ m' !! "$MERGE" = Some (JStr "base")
    ∧ ∀ key, key ≠ "$MERGE" → m' !! key = (∅ : gmap string json) !! key.
Proof.
  intros a.
  apply (proj1 merge_sets_reserved_key a (World ∅ 0) ∅ (JStr "base")). reflexivity.
Defined.

(** ** Running monadic code *)

Lemma bind_ok {A B} (m : M A) (k : A → M B) w a w1 t1 :
  m w = (Ok a, w1, t1) →
  bind m k w = (outcome (k a w1), final (k a w1), t1 ++ trace (k a w1)).
Proof.
  intros Hm. unfold bind. rewrite Hm. by destruct (k a w1) as [[r w2] t2].
Qed.

Lemma bind_raise {A B} (m : M A) (k : A → M B) w e w1 t1 :
  m w = (Raise e, w1, t1) → bind m k w = (Raise e, w1, t1).
Proof. intros Hm. unfold bind. by rewrite Hm. Qed.


(** A run that ends well went through both halves of a [bind]. *)
Lemma bind_inv_ok {A B} (m : M A) (k : A → M B) w b w2 t :
  bind m k w = (Ok b, w2, t) →
  ∃ a w1 t1 t2, m w = (Ok a, w1, t1) ∧ k a w1 = (Ok b, w2, t2) ∧ t = t1 ++ t2.
Proof.
  unfold bind. destruct (m w) as [[[a|e] w1] t1]; [|done].
  destruct (k a w1) as [[r w2'] t2] eqn:Hk. intros [= -> -> <-].
  by exists a, w1, t1, t2.
Qed.

Lemma bind_assoc {A B C} (m : M A) (f : A → M B) (g : B → M C) w :
  bind (bind m f) g w = bind m (λ a, bind (f a) g) w.
Proof.
  unfold bind. destruct (m w) as [[[a|e] w1] t1]; [|done].
  destruct (f a w1) as [[[b|e] w2] t2]; [|done].
  destruct (g b w2) as [[r w3] t3]. by rewrite app_assoc.
Qed.

Lemma bind_ext {A B} (m : M A) (f g : A → M B) w :
  (∀ a w1, f a w1 = g a w1) → bind m f w = bind m g w.
Proof.
  intros Hfg. unfold bind. destruct (m w) as [[[a|e] w1] t1]; [|done].
  by rewrite Hfg.
Qed.

Lemma bind_ret_l {A B} (a : A) (k : A → M B) w : bind (ret a) k w = k a w.
Proof. unfold bind, ret. by destruct (k a w) as [[r w2] t2]. Qed.

Lemma for_each_app {A S} (l1 l2 : list A) (body : A → S → M S) acc w :
  for_each (l1 ++ l2) body acc w
  = bind (for_each l1 body acc) (for_each l2 body) w.
Proof.
  revert acc w. induction l1 as [|x l1 IH]; intros acc w; simpl.
  - by rewrite bind_ret_l.
  - rewrite bind_assoc. apply bind_ext. intros acc' w1. apply IH.
Qed.

(** Membership in a trace that is written out. *)
Ltac in_trace :=
  unfold trace; simpl;
  match goal with
  | |- _ ∈ _ => apply list_elem_of_In; simpl; tauto
  end.

(** The same for a run on a repository that is written out. *)
Ltac in_run := apply list_elem_of_In; vm_compute; tauto.

Ltac not_in_trace H :=
  unfold trace in H; simpl in H; apply list_elem_of_In in H; simpl in H;
  intuition discriminate.

(** ** What [Build] answers *)

Lemma bind_ret_inv {A B} (m : M A) (v v' : B) w w' t :
  bind m (λ _, ret v) w = (Ok v', w', t) → v' = v.
Proof.
  unfold bind, ret. destruct (m w) as [[[a|e] w1] t1]; simpl; congruence.
Qed.

Lemma bind_bind_ret_outcome {A B C} (m : M A) (k : A → M B) (v v' : C) w :
  outcome (bind m (λ a, bind (k a) (λ _, ret v)) w) = Ok v' → v' = v.
Proof.
  unfold bind at 1. destruct (m w) as [[[a|e] w1] t1]; [|done].
  destruct (bind (k a) (λ _, ret v) w1) as [[r w2] t2] eqn:Hk.
  unfold outcome; simpl. intros ->. by eapply bind_ret_inv.
Qed.

(** C4 (as the code has it). No [Build] has a [return] statement: a call
    that ends well answers [None], whatever it changed. *)
Theorem Build_returns_None (X : Collaborators) (cls : handler_cls) (a : Args)
    (w : world) (v : pyval) :
  outcome (Build X cls a w) = Ok v → v = VNone.
Proof.
  destruct cls; simpl.
  - by intros [= <-].
  - apply bind_bind_ret_outcome.
  - unfold copy_Build. intros H.
    unfold bind at 1 in H. destruct (Metadata _ w) as [[[md|e] w1] t1]; [|done].
    unfold bind at 1 in H. destruct (Metadata _ w1) as [[[md2|e] w2] t2]; [|done].
    unfold bind at 1 in H. destruct (lift _ w2) as [[[stale|e] w3] t3]; [|done].
    destruct (bind _ _ w3) as [[r w4] t4] eqn:Hk.
    unfold outcome in H; simpl in H. subst r. by eapply bind_ret_inv.
  - apply bind_bind_ret_outcome.
  - unfold linux_Build. intros H.
    unfold bind at 1 in H. destruct (linux_loop X a w) as [[[vars|e] w1] t1]; [|done].
    unfold bind at 1 in H. destruct (emit _ w1) as [[[u|e] w2] t2]; [|done].
    destruct (bind _ _ w2) as [[r w4] t4] eqn:Hk.
    unfold outcome in H; simpl in H. subst r. by eapply bind_ret_inv.
Qed.

Lemma Build_returns_None_witness :
  ∃ v, outcome (Build Demo.X CopyAndTransform (Demo.args "base" false Demo.kw)
                  (Demo.store [("src/base.json", Entry "{}" 1)] 5)) = Ok v
       ∧ v = VNone.
Proof.
  exists VNone. split; [reflexivity|].
  apply (Build_returns_None Demo.X CopyAndTransform (Demo.args "base" false Demo.kw)
           (Demo.store [("src/base.json", Entry "{}" 1)] 5) VNone).
  reflexivity.
Defined.

(** C4 (as the specification has it) fails: a call of
    [CopyAndTransform.Build] that rebuilds its target ends well and answers
    [None], not a boolean. *)
Lemma Build_reports_no_boolean :
  ¬ reports_change Demo.X CopyAndTransform (Demo.args "base" false Demo.kw)
      (Demo.store [("src/base.json", Entry "{}" 1)] 5).
Proof.
  intros Hclaim. destruct (Hclaim VNone) as (changed & Hv & _); [by vm_compute|].
  discriminate Hv.
Qed.

(** ** Freshness of the copying plugin *)

(** C2. With the source in the repository, [CopyAndTransform.Build]
    rebuilds exactly when the target has no metadata or the source is
    strictly newer than the target. A fresh target costs two metadata
    calls and nothing else. A stale one is followed by [GetData] of the
    source, and, when the source decodes and the transforms apply, by the
    store of the transformed data under the target. *)
Theorem copy_rebuilds_iff_stale (X : Collaborators) (a : Args) (w : world) (src : entry) :
  files w !! source (kwargs a) = Some src →
  let target := profile_name a in
  let target_time := LastModified <$> files w !! target in
  let stale := spec_stale target_time (LastModified src) in
  let run := Build X CopyAndTransform a w in
  (¬ stale →
     run = (Ok VNone, w, [EvMetadata target; EvMetadata (source (kwargs a))]))
  ∧ (stale →
     [EvMetadata target; EvMetadata (source (kwargs a)); EvGetData (source (kwargs a)) false]
       `prefix_of` trace run)
  ∧ (stale ↔ EvGetData (source (kwargs a)) false ∈ trace run)
  ∧ ∀ data data',
      Decoder X (content src) = Some data →
      apply_transforms (default [] (transforms (kwargs a))) data = Ok data' →
      (stale ↔ ∃ stored, EvStoreData target stored ∈ trace run)
      ∧ (stale →
         run = (Ok VNone,
                {| files := <[target := Entry (PPrint X data') (advance X (clock w))]> (files w);
                   clock := advance X (clock w) |},
                [EvMetadata target; EvMetadata (source (kwargs a));
                 EvGetData (source (kwargs a)) false; EvTransformProfile;
                 EvStoreData target (Raw (PPrint X data'));
                 EvFormat "Building profile {0} from {1}\n"
                   [JStr target; JStr (source (kwargs a))]])).
Proof.
  intros Hsrc target target_time stale run.
  assert (Hdec : stale ∨ ¬ stale).
  { subst stale target_time. unfold spec_stale.
    destruct (files w !! target) as [tgt|]; simpl; [|by left; left].
    destruct (decide (LastModified src > LastModified tgt)); [left; right; eauto|].
    right. intros [|(t & [= <-] & ?)]; done. }
  assert (Hfresh : ¬ stale →
     run = (Ok VNone, w, [EvMetadata target; EvMetadata (source (kwargs a))])).
  { intros Hns. subst run stale target_time. simpl.
    unfold copy_Build, bind, Metadata, lift, copy_stale. fold target.
    rewrite Hsrc. simpl.
    destruct (files w !! target) as [tgt|] eqn:Htgt; simpl.
    - destruct (LastModified tgt <? LastModified src) eqn:Hlt; [|done].
      exfalso. apply Hns. right. exists (LastModified tgt). split; [done|].
      apply Z.ltb_lt in Hlt. lia.
    - exfalso. apply Hns. by left. }
  assert (Hstale : stale →
     ∃ r w' rest, run = (r, w', [EvMetadata target; EvMetadata (source (kwargs a));
                                  EvGetData (source (kwargs a)) false] ++ rest)
       ∧ ∀ data data', Decoder X (content src) = Some data →
           apply_transforms (default [] (transforms (kwargs a))) data = Ok data' →
           r = Ok VNone
           ∧ w' = {| files := <[target := Entry (PPrint X data') (advance X (clock w))]> (files w);
                     clock := advance X (clock w) |}
           ∧ rest = [EvTransformProfile; EvStoreData target (Raw (PPrint X data'));
                     EvFormat "Building profile {0} from {1}\n"
                       [JStr target; JStr (source (kwargs a))]]).
  { intros Hs. subst run stale target_time. simpl.
    unfold copy_Build, bind, Metadata, lift, copy_stale, GetData. fold target.
    rewrite Hsrc. simpl.
    assert (Hb : match LastModified <$> files w !! target with
                 | Some target_time => Ok (target_time <? LastModified src)
                 | None => Ok true
                 end = Ok true).
    { destruct Hs as [->|(t & -> & Hgt)]; [done|]. f_equal. apply Z.ltb_lt. lia. }
    rewrite Hb. clear Hb. simpl. rewrite Hsrc.
    destruct (Decoder X (content src)) as [data|] eqn:Hdata.
    - unfold TransformProfile, bind, emit, lift, StoreData, ret.
      destruct (apply_transforms (default [] (transforms (kwargs a))) data)
        as [data'|e] eqn:Hap; simpl.
      + eexists _, _, _. split; [reflexivity|]. intros ? ? [= <-] Hap'.
        rewrite Hap in Hap'. by injection Hap' as <-.
      + eexists _, _, _. split; [reflexivity|]. intros ? ? [= <-] Hap'.
        by rewrite Hap in Hap'.
    - eexists _, _, _. split; [reflexivity|]. by intros ? ? [=]. }
  split_and!.
  - done.
  - intros Hs. destruct (Hstale Hs) as (r & w' & rest & -> & _). by exists rest.
  - split.
    + intros Hs. destruct (Hstale Hs) as (r & w' & rest & -> & _).
      in_trace.
    + intros Hin. destruct Hdec as [Hs|Hns]; [done|].
      rewrite (Hfresh Hns) in Hin. not_in_trace Hin.
  - intros data data' Hdata Hap. split; [split|].
    + intros Hs. destruct (Hstale Hs) as (r & w' & rest & -> & Hrest).
      destruct (Hrest _ _ Hdata Hap) as (_ & _ & ->).
      exists (Raw (PPrint X data')). in_trace.
    + intros [stored Hin]. destruct Hdec as [Hs|Hns]; [done|].
      rewrite (Hfresh Hns) in Hin. not_in_trace Hin.
    + intros Hs. destruct (Hstale Hs) as (r & w' & rest & -> & Hrest).
      by destruct (Hrest _ _ Hdata Hap) as (-> & -> & ->).
Qed.

Lemma copy_rebuilds_iff_stale_witness :
  let w := Demo.store [("src/base.json", Entry "{}" 7); ("base", Entry "{}" 3)] 9 in
  let run := Build Demo.X CopyAndTransform (Demo.args "base" false Demo.kw) w in
  spec_stale (Some 3) 7 ↔ EvGetData "src/base.json" false ∈ trace run.
Proof.
  intros w run.
  pose proof (copy_rebuilds_iff_stale Demo.X (Demo.args "base" false Demo.kw) w
                (Entry "{}" 7) eq_refl) as H.
  exact (proj1 (proj2 (proj2 H))).
Defined.

(** ** A conversion that gives nothing *)

(** In the scan loop of [LinuxProfile.Build], a source that is not built yet
    and that the converter answers nothing for does not get past the
    logging call of line 240: the loop stops with [NameError]. *)
Lemma linux_body_conversion_failure (X : Collaborators) (a : Args)
    (source_profile : string) (v : linux_vars) (w : world) (profile : json) :
  is_linux_source source_profile = true →
  files w !! linux_profile_id source_profile = None →
  ConvertProfile X (GetAbsolutePathName X source_profile) (files w) = Some profile →
  truthy profile = false →
  linux_body X a source_profile v w
  = (Raise (NameError "profile_path"), w,
     [EvMetadata (linux_profile_id source_profile);
      EvProgress "Found new raw Linux profile %s. Converting..."
        [JStr (linux_profile_id source_profile)];
      EvLog "Found new raw Linux profile %s" [JStr (linux_profile_id source_profile)];
      EvConvertProfile (GetAbsolutePathName X source_profile)]).
Proof.
  intros Hsrc Hnew Hconv Hnone.
  unfold linux_body, bind, Metadata, emit, snapshot, call_plugin, raise.
  rewrite Hsrc, Hnew. simpl. rewrite Hconv, Hnone. reflexivity.
Qed.

(** C3 (what the code does). The repository holds two raw archives,
    [src/Linux/bad.zip], for which the converter answers nothing, and
    [src/Linux/b.zip]. [LinuxProfile.Build] raises [NameError] at the first,
    logs no skipped profile, never reaches the second and leaves the
    repository as it was. *)
Theorem linux_Build_conversion_failure_raises :
  let w := Demo.store [("src/Linux/bad.zip", Entry "PK" 1);
                       ("src/Linux/b.zip", Entry "PK" 2)] 5 in
  let run := Build Demo.X LinuxProfile (Demo.args "Linux" false Demo.kw) w in
  (map_to_list (files w)).*1 = ["src/Linux/bad.zip"; "src/Linux/b.zip"]
  ∧ ConvertProfile Demo.X "/repo/src/Linux/bad.zip" (files w) = Some JNull
  ∧ outcome run = Raise (NameError "profile_path")
  ∧ final run = w
  ∧ trace run =
      [EvLoadProfile "Linux/index"; EvListFiles; EvMetadata "Linux/bad";
       EvProgress "Found new raw Linux profile %s. Converting..." [JStr "Linux/bad"];
       EvLog "Found new raw Linux profile %s" [JStr "Linux/bad"];
       EvConvertProfile "/repo/src/Linux/bad.zip"].
Proof. vm_compute. by split_and!. Qed.

(** ** Targets without a usable type *)

(** C9. [render] has gone through the targets [before] without an error.
    The next target is not filtered out. If it has no [type], [render]
    raises the error of a missing handler; if its [type] is not in the
    registry, [render] raises the error of an unknown handler. Either way
    the run ends there, in the state and with the calls of the targets
    [before]: no plugin is built or run for this target or for the targets
    [after]. *)
Theorem render_rejects_untyped_target (X : Collaborators)
    (classes : gmap string handler_cls) (build_targets : option (list string))
    (force : bool) (before after : list (string * Target))
    (name : string) (kw : Target) (w w1 : world) (t1 : list event) :
  render X classes build_targets force before w = (Ok (), w1, t1) →
  filtered_out build_targets name = false →
  (type kw = None →
     render X classes build_targets force (before ++ (name, kw) :: after) w
     = (Raise (RuntimeError ("Unspecified repository handler for profile " +:+ name)),
        w1, t1))
  ∧ (∀ handler_type,
       type kw = Some handler_type →
       handler_type ≠ "" →
       classes !! handler_type = None →
       render X classes build_targets force (before ++ (name, kw) :: after) w
       = (Raise (RuntimeError ("Unknown repository handler " +:+ handler_type)),
          w1, t1)).
Proof.
  intros Hbefore Hkept. unfold render in *. split.
  - intros Htype. rewrite for_each_app, (bind_ok _ _ _ _ _ _ Hbefore). simpl.
    unfold bind, render_target. rewrite Hkept, Htype. simpl.
    by rewrite app_nil_r.
  - intros handler_type Htype Hne Hreg.
    rewrite for_each_app, (bind_ok _ _ _ _ _ _ Hbefore). simpl.
    unfold bind, render_target, resolve. rewrite Hkept, Htype. simpl.
    apply String.eqb_neq in Hne. rewrite Hne, Hreg. simpl.
    by rewrite app_nil_r.
Qed.

Lemma render_rejects_untyped_target_witness :
  let w := Demo.store [("src/base.json", Entry "{}" 3); ("base", Entry "{}" 7)] 9 in
  let before := [("base", Demo.target (Some "CopyAndTransform") Demo.kw)] in
  let after := [("nt", Demo.target (Some "WindowsGUIDProfile") Demo.kw)] in
  render Demo.X Demo.classes None false
    (before ++ ("OSX", Demo.target None Demo.kw) :: after) w
  = (Raise (RuntimeError "Unspecified repository handler for profile OSX"), w,
     [EvConstruct "CopyAndTransform" "base"; EvMetadata "base"; EvMetadata "src/base.json"])
  ∧ render Demo.X Demo.classes None false
      (before ++ ("OSX", Demo.target (Some "MacProfile") Demo.kw) :: after) w
    = (Raise (RuntimeError "Unknown repository handler MacProfile"), w,
       [EvConstruct "CopyAndTransform" "base"; EvMetadata "base"; EvMetadata "src/base.json"]).
Proof.
  intros w before after. split.
  - apply (proj1 (render_rejects_untyped_target Demo.X Demo.classes None false
                    before after "OSX" (Demo.target None Demo.kw) w w _
                    eq_refl eq_refl) eq_refl).
  - apply (proj2 (render_rejects_untyped_target Demo.X Demo.classes None false
                    before after "OSX" (Demo.target (Some "MacProfile") Demo.kw) w w _
                    eq_refl eq_refl) "MacProfile" eq_refl); [discriminate | reflexivity].
Defined.

(** ** Rules for the calls made by monadic code *)

Section Emits.

Context {A B : Type} (P : event → Prop).

Lemma emits_ret (a : A) : emits P (ret a).
Proof. intros w. constructor. Qed.

Lemma emits_raise (e : exn) : emits P (@raise A e).
Proof. intros w. constructor. Qed.

Lemma emits_lift (r : result A) : emits P (lift r).
Proof. intros w. constructor. Qed.

Lemma emits_emit ev : P ev → emits P (emit ev).
Proof. intros Hev w. by repeat constructor. Qed.

Lemma emits_call_plugin name ev (answer : option A) :
  P ev → emits P (call_plugin name ev answer).
Proof. intros Hev w. unfold call_plugin. destruct answer; by repeat constructor. Qed.

Lemma emits_bind (m : M A) (k : A → M B) :
  emits P m → (∀ a, emits P (k a)) → emits P (bind m k).
Proof.
  intros Hm Hk w. specialize (Hm w). unfold bind.
  destruct (m w) as [[[a|e] w1] t1]; [|done].
  specialize (Hk a w1). destruct (k a w1) as [[r w2] t2].
  unfold trace in *; simpl in *. by apply Forall_app.
Qed.

End Emits.

Lemma emits_for_each {A S} (P : event → Prop) (l : list A) (body : A → S → M S) acc :
  (∀ x acc', emits P (body x acc')) → emits P (for_each l body acc).
Proof.
  intros Hbody. revert acc. induction l as [|x l IH]; intros acc; simpl.
  - apply emits_ret.
  - apply emits_bind; [apply Hbody | apply IH].
Qed.

Section EmitsStore.

Context (X : Collaborators) (P : event → Prop).

Lemma emits_Metadata path : P (EvMetadata path) → emits P (Metadata path).
Proof. intros Hev w. by repeat constructor. Qed.

Lemma emits_GetData path : P (EvGetData path false) → emits P (GetData X path).
Proof.
  intros Hev w. unfold GetData.
  destruct (files w !! path) as [e|]; [destruct (Decoder X (content e))|];
    by repeat constructor.
Qed.

Lemma emits_GetDataRaw path : P (EvGetData path true) → emits P (GetDataRaw path).
Proof.
  intros Hev w. unfold GetDataRaw.
  destruct (files w !! path) as [e|]; by repeat constructor.
Qed.

Lemma emits_StoreData path data : P (EvStoreData path data) → emits P (StoreData X path data).
Proof. intros Hev w. by repeat constructor. Qed.

Lemma emits_ListFiles : P EvListFiles → emits P ListFiles.
Proof. intros Hev w. by repeat constructor. Qed.

Lemma emits_snapshot : emits P snapshot.
Proof. intros w. constructor. Qed.

Lemma emits_TransformProfile a doc : P EvTransformProfile → emits P (TransformProfile a doc).
Proof.
  intros Hev. apply emits_bind; [by apply emits_emit | intros _; apply emits_lift].
Qed.

End EmitsStore.

(** Breaks a goal [emits P m] down along the structure of [m]. *)
Ltac emits_step :=
  match goal with
  | |- emits _ (bind _ _) => apply emits_bind; [|intros ?]
  | |- emits _ (for_each _ _ _) => apply emits_for_each; intros ? ?
  | |- emits _ (ret _) => apply emits_ret
  | |- emits _ (raise _) => apply emits_raise
  | |- emits _ (lift _) => apply emits_lift
  | |- emits _ snapshot => apply emits_snapshot
  | |- emits _ (emit _) => apply emits_emit
  | |- emits _ (call_plugin _ _ _) => apply emits_call_plugin
  | |- emits _ (Metadata _) => apply emits_Metadata
  | |- emits _ (GetData _ _) => apply emits_GetData
  | |- emits _ (GetDataRaw _) => apply emits_GetDataRaw
  | |- emits _ (StoreData _ _ _) => apply emits_StoreData
  | |- emits _ ListFiles => apply emits_ListFiles
  | |- emits _ (TransformProfile _ _) => apply emits_TransformProfile
  | |- emits _ (match ?x with _ => _ end) => destruct x
  | |- emits _ (if ?b then _ else _) => destruct b
  end.

Ltac emits_auto := repeat emits_step; try done.

Lemma trace_bind_l {A B} (m : M A) (k : A → M B) w ev :
  ev ∈ trace (m w) → ev ∈ trace (bind m k w).
Proof.
  unfold bind. destruct (m w) as [[[a|e] w1] t1]; [|done].
  destruct (k a w1) as [[r w2] t2]. unfold trace; simpl.
  intros Hin. apply elem_of_app. by left.
Qed.

Lemma trace_bind_r {A B} (m : M A) (k : A → M B) w a w1 t1 ev :
  m w = (Ok a, w1, t1) → ev ∈ trace (k a w1) → ev ∈ trace (bind m k w).
Proof.
  intros Hm. rewrite (bind_ok _ _ _ _ _ _ Hm). unfold trace at 2; simpl.
  intros Hin. apply elem_of_app. by right.
Qed.

(** ** When the index is built *)

Lemma BuildIndex_invoked (X : Collaborators) (a : Args) (w : world) :
  EvBuildIndex (profile_name a) ∈ trace (BuildIndex X a w).
Proof. unfold BuildIndex. apply trace_bind_l. in_trace. Qed.

Lemma osx_loop_builds_no_index (X : Collaborators) (a : Args) :
  emits (λ ev, is_index_build ev = false) (osx_loop X a).
Proof. unfold osx_loop, osx_body. emits_auto. Qed.

(** C5. [OSXProfile.Build] without an index in its arguments (and without
    the force flag) never calls [BuildIndex], whatever it rebuilt.
    [WindowsGUIDProfile.Build] and [LinuxProfile.Build] with the force flag
    call [BuildIndex] as soon as their loop is through, whether the loop
    changed something or not. *)
Theorem index_trigger_asymmetry (X : Collaborators) (a : Args) (w : world) :
  (index (kwargs a) = None → force_build_index a = false →
     ∀ name, EvBuildIndex name ∉ trace (Build X OSXProfile a w))
  ∧ (force_build_index a = true →
     (∀ changed w1 t1,
        windows_loop X a w = (Ok changed, w1, t1) →
        EvBuildIndex (profile_name a) ∈ trace (Build X WindowsGUIDProfile a w))
     ∧ (∀ vars w1 t1,
        linux_loop X a w = (Ok vars, w1, t1) →
        EvBuildIndex (profile_name a) ∈ trace (Build X LinuxProfile a w))).
Proof.
  split.
  - intros Hindex _ name Hin.
    assert (Hquiet : emits (λ ev, is_index_build ev = false) (osx_Build X a)).
    { unfold osx_Build. apply emits_bind; [apply osx_loop_builds_no_index|].
      intros changed. unfold index_wanted_osx. rewrite Hindex.
      rewrite andb_false_r. emits_auto. }
    specialize (Hquiet w). rewrite Forall_forall in Hquiet.
    by specialize (Hquiet _ Hin).
  - intros Hforce. split.
    + intros changed w1 t1 Hloop. simpl. unfold windows_Build.
      eapply trace_bind_r; [exact Hloop|].
      unfold index_wanted. rewrite Hforce, orb_true_r.
      apply trace_bind_l.
      eapply trace_bind_r; [reflexivity|]. apply BuildIndex_invoked.
    + intros vars w1 t1 Hloop. simpl. unfold linux_Build.
      eapply trace_bind_r; [exact Hloop|].
      eapply trace_bind_r; [reflexivity|].
      unfold index_wanted. rewrite Hforce, orb_true_r.
      apply trace_bind_l. apply BuildIndex_invoked.
Qed.

Lemma index_trigger_asymmetry_witness :
  let osx := Build Demo.X OSXProfile (Demo.args "OSX" false Demo.kw)
               (Demo.store [("src/OSX/10.9.json", Entry "{}" 1)] 5) in
  let built := Demo.store [("nt/guids", Entry "guids" 1); ("nt/G1", Entry "{}" 2);
                           ("nt/G2", Entry "{}" 3); ("src/index.yaml", Entry "{}" 1)] 5 in
  (EvStoreData "OSX/10.9.json" (Raw "{}") ∈ trace osx ∧ EvBuildIndex "OSX" ∉ trace osx)
  ∧ (outcome (windows_loop Demo.X (Demo.args "nt" true Demo.kw_index) built) = Ok false
     ∧ EvBuildIndex "nt"
         ∈ trace (Build Demo.X WindowsGUIDProfile (Demo.args "nt" true Demo.kw_index) built))
  ∧ (changed_files <$> outcome_value (linux_loop Demo.X (Demo.args "Linux" true Demo.kw_index) built)
       = Some false
     ∧ EvBuildIndex "Linux"
         ∈ trace (Build Demo.X LinuxProfile (Demo.args "Linux" true Demo.kw_index) built)).
Proof.
  intros osx built. split_and!.
  - subst osx. in_run.
  - apply (proj1 (index_trigger_asymmetry Demo.X (Demo.args "OSX" false Demo.kw)
                    (Demo.store [("src/OSX/10.9.json", Entry "{}" 1)] 5)));
      reflexivity.
  - reflexivity.
  - eapply (proj1 (proj2 (index_trigger_asymmetry Demo.X
                            (Demo.args "nt" true Demo.kw_index) built) eq_refl)).
    vm_compute. reflexivity.
  - reflexivity.
  - eapply (proj2 (proj2 (index_trigger_asymmetry Demo.X
                            (Demo.args "Linux" true Demo.kw_index) built) eq_refl)).
    vm_compute. reflexivity.
Defined.

(** ** A transform that is not known *)

Lemma apply_transforms_unknown (items : list (string * json)) (name : string) :
  unknown_transform items = Some name →
  (∀ m : gmap string json,
     apply_transforms items (JObj m) = Raise (RuntimeError ("Unknown transform " +:+ name)))
  ∧ (∀ doc, ∃ e, apply_transforms items doc = Raise e ∧ transform_error name e).
Proof.
  induction items as [|[transform args] rest IH]; [done|]. simpl.
  destruct (String.eqb transform "merge") eqn:Hmerge.
  - intros Hrest. destruct (IH Hrest) as [IHobj IHany]. split.
    + intros m. simpl. apply IHobj.
    + intros doc. destruct doc; simpl; try (eexists; split; [reflexivity|right; eauto]).
      apply IHany.
  - intros [= ->]. split; [done|]. intros doc. eexists. split; [reflexivity|by left].
Qed.


Section Stops.

Context {A B : Type} (P : event → Prop) (E : exn → Prop).






End Stops.



Lemma RunPlugin_raises (plugin_name : string) (w : world) :
  _RunPlugin plugin_name w = (Raise (AttributeError "_RunPlugin"), w, []).
Proof. reflexivity. Qed.



Section UnknownTransform.

Context (X : Collaborators) (a : Args) (name : string).
Hypothesis Hbad : unknown_transform (default [] (transforms (kwargs a))) = Some name.






End UnknownTransform.



(** ** Paths *)

Lemma list_ascii_of_append (s t : string) :
  list_ascii_of_string (s +:+ t) = list_ascii_of_string s ++ list_ascii_of_string t.
Proof. induction s as [|c s IH]; [done|]. rewrite append_cons. simpl. by rewrite IH. Qed.

Lemma append_inj_r (s1 s2 t : string) : s1 +:+ t = s2 +:+ t → s1 = s2.
Proof.
  intros Heq. apply (f_equal list_ascii_of_string) in Heq.
  rewrite !list_ascii_of_append in Heq. apply app_inv_tail in Heq.
  apply (f_equal string_of_list_ascii) in Heq.
  by rewrite !string_of_list_ascii_of_string in Heq.
Qed.

Lemma pdb_path_inj (g1 g2 : string) : pdb_path g1 = pdb_path g2 → g1 = g2.
Proof.
  unfold pdb_path. intros Heq. apply (inj (String.app "src/pdb/")) in Heq.
  by apply append_inj_r in Heq.
Qed.

Lemma profile_path_inj (name g1 g2 : string) :
  profile_path name g1 = profile_path name g2 → g1 = g2.
Proof.
  unfold profile_path. intros Heq. apply (inj (String.app name)) in Heq.
  by apply (inj (String.app "/")) in Heq.
Qed.

Lemma grows_refl w : grows w w.
Proof. by intros path. Qed.

Lemma grows_trans w1 w2 w3 : grows w1 w2 → grows w2 w3 → grows w1 w3.
Proof. intros H12 H23 path Hp. by apply H23, H12. Qed.

Lemma grows_store (X : Collaborators) path data w :
  grows w (final (StoreData X path data w)).
Proof.
  intros p Hp. unfold final; simpl.
  destruct (decide (path = p)) as [->|Hne].
  - rewrite lookup_insert_eq. eauto.
  - by rewrite lookup_insert_ne.
Qed.

(** ** Rules for code that keeps an invariant *)

Section Holds.

Context {A B : Type} (I : world → Prop) (P : event → Prop).

Lemma holds_bind (m : M A) (k : A → M B) :
  holds I P m → (∀ a, holds I P (k a)) → holds I P (bind m k).
Proof.
  intros Hm Hk w Hw. destruct (Hm w Hw) as [HI HP]. unfold bind.
  destruct (m w) as [[[a|e] w1] t1]; [|done].
  destruct (Hk a w1 HI) as [HI2 HP2]. destruct (k a w1) as [[r w2] t2].
  unfold final, trace in *; simpl in *. split; [done | by apply Forall_app].
Qed.

(** Code that does not write keeps any invariant. *)
Lemma holds_reader (m : M A) :
  (∀ w, final (m w) = w) → emits P m → holds I P m.
Proof. intros Hsame Hm w Hw. rewrite Hsame. by split. Qed.

End Holds.

Lemma holds_for_each {A S} (I : world → Prop) (P : event → Prop)
    (l : list A) (body : A → S → M S) acc :
  (∀ x acc', holds I P (body x acc')) → holds I P (for_each l body acc).
Proof.
  intros Hbody. revert acc. induction l as [|x l IH]; intros acc; simpl.
  - by intros w Hw; split; [|constructor].
  - apply holds_bind; [apply Hbody | apply IH].
Qed.

Lemma holds_StoreData (X : Collaborators) (I : world → Prop) (P : event → Prop) path data :
  (∀ w, I w → I (final (StoreData X path data w))) →
  P (EvStoreData path data) →
  holds I P (StoreData X path data).
Proof. intros HI HP w Hw. split; [by apply HI | by repeat constructor]. Qed.

Lemma GetData_reads (X : Collaborators) path w : final (GetData X path w) = w.
Proof.
  unfold GetData. destruct (files w !! path) as [e|]; [|done].
  by destruct (Decoder X (content e)).
Qed.

Lemma GetDataRaw_reads path w : final (GetDataRaw path w) = w.
Proof. unfold GetDataRaw. by destruct (files w !! path). Qed.

Lemma call_plugin_reads {A} name ev (answer : option A) w :
  final (call_plugin name ev answer w) = w.
Proof. unfold call_plugin. by destruct answer. Qed.

Lemma TransformProfile_reads a doc w : final (TransformProfile a doc w) = w.
Proof.
  unfold TransformProfile, bind, emit, lift. simpl.
  by destruct (apply_transforms _ doc).
Qed.

(** Breaks a goal [holds I P m] down along the structure of [m]; the stores
    are left to the caller. *)
Ltac holds_step :=
  match goal with
  | |- holds _ _ (bind _ _) => apply holds_bind; [|intros ?]
  | |- holds _ _ (for_each _ _ _) => apply holds_for_each; intros ? ?
  | |- holds _ _ (StoreData _ _ _) => apply holds_StoreData
  | |- holds _ _ (GetData _ _) =>
      apply holds_reader; [apply GetData_reads | apply emits_GetData]
  | |- holds _ _ (GetDataRaw _) =>
      apply holds_reader; [apply GetDataRaw_reads | apply emits_GetDataRaw]
  | |- holds _ _ (call_plugin _ _ _) =>
      apply holds_reader; [apply call_plugin_reads | apply emits_call_plugin]
  | |- holds _ _ (TransformProfile _ _) =>
      apply holds_reader; [apply TransformProfile_reads | apply emits_TransformProfile]
  | |- holds _ _ (Metadata _) => apply holds_reader; [done | apply emits_Metadata]
  | |- holds _ _ ListFiles => apply holds_reader; [done | apply emits_ListFiles]
  | |- holds _ _ snapshot => apply holds_reader; [done | apply emits_snapshot]
  | |- holds _ _ (emit _) => apply holds_reader; [done | apply emits_emit]
  | |- holds _ _ (ret _) => apply holds_reader; [done | apply emits_ret]
  | |- holds _ _ (raise _) => apply holds_reader; [done | apply emits_raise]
  | |- holds _ _ (lift _) => apply holds_reader; [done | apply emits_lift]
  | |- holds _ _ (match ?x with _ => _ end) => destruct x
  | |- holds _ _ (if ?b then _ else _) => destruct b
  end.

(** ** The repository only grows *)

Ltac grows_auto :=
  repeat holds_step; try done;
  try (intros ? ?; eapply grows_trans; [eassumption | apply grows_store]).

Section Grows.

Context (X : Collaborators) (a : Args) (w0 : world).

Local Abbreviation any := (λ _ : event, True).

Lemma BuildIndex_grows : holds (grows w0) any (BuildIndex X a).
Proof. unfold BuildIndex, GetData_index. grows_auto. Qed.

Lemma build_guid_grows pdb guid acc : holds (grows w0) any (build_guid X a pdb guid acc).
Proof. unfold build_guid, FetchPDB, ParsePDB. grows_auto. Qed.

Lemma osx_body_grows source acc : holds (grows w0) any (osx_body X a source acc).
Proof. unfold osx_body. grows_auto. Qed.

Lemma linux_body_grows source acc : holds (grows w0) any (linux_body X a source acc).
Proof. unfold linux_body. grows_auto. Qed.


End Grows.

Lemma holds_grows {A} (m : M A) (w : world) :
  (∀ w0, holds (grows w0) (λ _, True) m) → grows w (final (m w)).
Proof. intros Hm. apply (Hm w w), grows_refl. Qed.

(** ** Resuming after a fetch *)

(** For a guid without a profile the loop body never gets past
    [_RunPlugin]: without the raw file it raises in [FetchPDB], before
    anything is fetched; with it, in [ParsePDB], once the raw file is
    read. Either way nothing is fetched, converted or stored. *)
Lemma build_guid_raises (X : Collaborators) (a : Args) (pdb g : string) (acc : bool)
    (w : world) :
  files w !! profile_path (profile_name a) g = None →
  build_guid X a pdb g acc w
  = (Raise (AttributeError "_RunPlugin"), w,
     [EvMetadata (profile_path (profile_name a) g);
      EvFormat "Building profile {0}/{1}\n" [JStr (profile_name a); JStr g];
      EvMetadata (pdb_path g)]
     ++ match files w !! pdb_path g with
        | Some _ => [EvGetData (pdb_path g) true]
        | None => []
        end).
Proof.
  intros Hprof.
  unfold build_guid, FetchPDB, ParsePDB, _RunPlugin, bind, Metadata, emit, ret, raise,
    GetDataRaw.
  rewrite Hprof. simpl.
  destruct (files w !! pdb_path g) as [raw|] eqn:Hraw; simpl; [|done].
  by rewrite Hraw.
Qed.

(** C8 (what the code does). The guid file lists [G1], the raw file
    [src/pdb/G1.pdb] is in the repository and the profile [nt/G1] is not.
    [WindowsGUIDProfile.Build] makes no fetch, reads the raw file and
    raises [AttributeError] at the call of [_RunPlugin] of line 110: the
    converter is not called and no profile is stored. *)
Theorem resumed_guid_raises_AttributeError :
  let a := Demo.args "nt" false Demo.kw in
  let w := Demo.store [("nt/guids", Entry "guids" 1); ("src/pdb/G1.pdb", Entry "MSF 7.00" 2)] 5 in
  let run := Build Demo.X WindowsGUIDProfile a w in
  "G1" ∈ guids_of Demo.guid_file
  ∧ pending a "G1" (Entry "MSF 7.00" 2) w
  ∧ outcome run = Raise (AttributeError "_RunPlugin")
  ∧ final run = w
  ∧ trace run
    = [EvGetData "nt/guids" false; EvMetadata "nt/G1";
       EvFormat "Building profile {0}/{1}\n" [JStr "nt"; JStr "G1"];
       EvMetadata "src/pdb/G1.pdb"; EvGetData "src/pdb/G1.pdb" true]
  ∧ ¬ converted_in Demo.X a "G1" (Entry "MSF 7.00" 2) (trace run).
Proof.
  intros a w run.
  assert (Htrace : trace run
    = [EvGetData "nt/guids" false; EvMetadata "nt/G1";
       EvFormat "Building profile {0}/{1}\n" [JStr "nt"; JStr "G1"];
       EvMetadata "src/pdb/G1.pdb"; EvGetData "src/pdb/G1.pdb" true])
    by (vm_compute; reflexivity).
  split; [in_run|].
  split; [split; reflexivity|].
  split; [reflexivity|].
  split; [reflexivity|].
  split; [exact Htrace|].
  intros (cls & converted & doc' & _ & _ & Hin & _).
  rewrite Htrace in Hin. apply list_elem_of_In in Hin. simpl in Hin.
  intuition discriminate.
Qed.

(** ** A second call *)

Lemma GetData_ok_inv (X : Collaborators) path w doc :
  outcome (GetData X path w) = Ok doc →
  GetData X path w = (Ok doc, w, [EvGetData path false]).
Proof.
  unfold GetData, outcome. destruct (files w !! path) as [e|]; [|done].
  destruct (Decoder X (content e)); simpl; congruence.
Qed.

Section WindowsAgain.

Context (X : Collaborators) (a : Args).

Local Abbreviation built w g := (is_Some (files w !! profile_path (profile_name a) g)).

Lemma build_guid_built pdb g acc w acc' w' t :
  build_guid X a pdb g acc w = (Ok acc', w', t) → built w' g.
Proof.
  intros Hrun.
  unfold build_guid, FetchPDB, ParsePDB, TransformProfile, bind, Metadata, emit, ret,
    call_plugin, GetDataRaw, StoreData, lift in Hrun.
  destruct (files w !! profile_path (profile_name a) g) as [e|] eqn:Hprof;
    simpl in Hrun.
  - injection Hrun as <- <- <-. by rewrite Hprof.
  - repeat case_match; simplify_eq; simpl; rewrite lookup_insert_eq; eauto.
Qed.

Lemma guid_loop_grows pdb ids acc w :
  grows w (final (for_each ids (build_guid X a pdb) acc w)).
Proof.
  apply holds_grows. intros w0. apply holds_for_each. intros g acc'.
  apply build_guid_grows.
Qed.

Lemma guid_loop_built pdb ids acc w acc' w' t :
  for_each ids (build_guid X a pdb) acc w = (Ok acc', w', t) →
  grows w w' ∧ ∀ g, g ∈ ids → built w' g.
Proof.
  intros Hrun. split.
  { pose proof (guid_loop_grows pdb ids acc w) as Hg. by rewrite Hrun in Hg. }
  revert acc w t Hrun. induction ids as [|g' ids IH]; intros acc w t Hrun g Hin.
  - by apply elem_of_nil in Hin.
  - simpl in Hrun.
    apply bind_inv_ok in Hrun as (acc1 & w1 & t1 & t2 & Hbody & Hrest & ->).
    apply elem_of_cons in Hin as [->|Hin]; [|by eapply IH].
    pose proof (guid_loop_grows pdb ids acc1 w1) as Hg. rewrite Hrest in Hg.
    apply Hg. by eapply build_guid_built.
Qed.

(** What the first pass leaves for the second: every item lists guids,
    and every guid has its profile. *)
Local Abbreviation all_built w items :=
  (∀ item : string * json, item ∈ items →
     ∃ ids, guid_list item.2 = Ok ids ∧ ∀ g, g ∈ ids → built w g).

Lemma pdb_loop_grows items acc w :
  grows w (final (for_each items (build_pdb X a) acc w)).
Proof.
  apply holds_grows. intros w0. apply holds_for_each. intros item acc'.
  unfold build_pdb. apply holds_bind; [by holds_step|]. intros ids.
  apply holds_for_each. intros g acc''. apply build_guid_grows.
Qed.

Lemma pdb_loop_built items acc w acc' w' t :
  for_each items (build_pdb X a) acc w = (Ok acc', w', t) → all_built w' items.
Proof.
  revert acc w t. induction items as [|[pdb gl] items IH]; intros acc w t Hrun item Hin.
  - by apply elem_of_nil in Hin.
  - simpl in Hrun.
    apply bind_inv_ok in Hrun as (acc1 & w1 & t1 & t2 & Hbody & Hrest & ->).
    apply elem_of_cons in Hin as [->|Hin]; [|by eapply IH].
    unfold build_pdb in Hbody. simpl in Hbody.
    apply bind_inv_ok in Hbody as (ids & w0 & t0 & t0' & Hids & Hloop & ->).
    unfold lift in Hids. injection Hids as Hids <- <-.
    exists ids. split; [done|]. intros g Hg.
    pose proof (pdb_loop_grows items acc1 w1) as Hgrow. rewrite Hrest in Hgrow.
    apply Hgrow. by apply (guid_loop_built pdb ids acc w acc1 w1 t0').
Qed.




End WindowsAgain.

Section CopyAgain.

Context (X : Collaborators) (a : Args).




End CopyAgain.

Section OSXAgain.

Context (X : Collaborators) (a : Args).

Local Abbreviation built w source := (is_Some (files w !! osx_profile_name source)).

Lemma osx_body_built source acc w acc' w' t :
  osx_body X a source acc w = (Ok acc', w', t) → built w' source.
Proof.
  intros Hrun.
  unfold osx_body, TransformProfile, bind, Metadata, emit, ret, GetData, StoreData,
    lift in Hrun.
  destruct (files w !! osx_profile_name source) as [e|] eqn:Hprof; simpl in Hrun.
  - injection Hrun as <- <- <-. by rewrite Hprof.
  - repeat case_match; simplify_eq; simpl; rewrite lookup_insert_eq; eauto.
Qed.





End OSXAgain.

(** *** Paths that are no raw Linux archives *)

Lemma startswith_src k : PyStr.startswith k "src/Linux" = true → PyStr.starts_in "src/" k = true.
Proof.
  destruct k as [|c k]; [done|]. intros Hstart.
  assert (Hc : Ascii.eqb "s" c = true).
  { destruct (Ascii.eqb "s" c) eqn:Hc; [done|].
    cbn [PyStr.startswith] in Hstart. by rewrite Hc in Hstart. }
  apply Ascii.eqb_eq in Hc. by subst c.
Qed.

Lemma linux_profile_id_not_source s : is_linux_source (linux_profile_id s) = false.
Proof.
  unfold is_linux_source.
  destruct (PyStr.startswith (linux_profile_id s) "src/Linux") eqn:Hstart; [|done].
  apply startswith_src in Hstart. unfold linux_profile_id in Hstart.
  apply starts_in_rstrip in Hstart.
  destruct (lstrip_spec "src/" s) as (dropped & _ & _ & Hfirst). congruence.
Qed.

Lemma last_append s t : t ≠ "" → PyStr.last (s +:+ t) = PyStr.last t.
Proof.
  intros Ht. induction s as [|c s IH]; [done|].
  rewrite append_cons. simpl. rewrite IH.
  destruct (s +:+ t) eqn:Happ; [|done].
  destruct s; [by rewrite append_nil in Happ | by rewrite append_cons in Happ].
Qed.

Lemma endswith_empty p : p ≠ "" → PyStr.endswith "" p = false.
Proof.
  intros Hp. cbn [PyStr.endswith].
  destruct (String.eqb "" p) eqn:Heq; [|done].
  apply String.eqb_eq in Heq. by subst p.
Qed.

Lemma endswith_last s p : p ≠ "" → PyStr.endswith s p = true → PyStr.last s = PyStr.last p.
Proof.
  intros Hp. induction s as [|c s IH].
  - by rewrite endswith_empty.
  - cbn [PyStr.endswith]. destruct (String.eqb (String c s) p) eqn:Heq.
    + apply String.eqb_eq in Heq. by subst p.
    + intros Hend. rewrite <- (IH Hend).
      destruct s; [|done]. by rewrite endswith_empty in Hend.
Qed.

Lemma index_path_not_source name : is_linux_source (index_path name) = false.
Proof.
  unfold is_linux_source.
  destruct (PyStr.endswith (index_path name) ".zip") eqn:Hend; [|by rewrite andb_false_r].
  apply endswith_last in Hend; [|done].
  unfold index_path in Hend. rewrite last_append in Hend; done.
Qed.


Section LinuxAgain.

Context (X : Collaborators) (a : Args).

Local Abbreviation built w source_profile :=
  (is_linux_source source_profile = true →
   is_Some (files w !! linux_profile_id source_profile)).







End LinuxAgain.




(** * Further properties of the module *)

Lemma run_eta_inv {A} (x : result A * world * list event) :
  (outcome x, final x, [] ++ trace x) = x.
Proof. by destruct x as [[r w] t]. Qed.

(** ** [TransformProfile] *)

(** X1. On a document, the transforms apply exactly when every name is
    [merge]. The result then has [$MERGE] set to the arguments of the last
    transform, or as it was without any transform, and every other key as
    it was. *)
Theorem apply_transforms_all_merge (items : list (string * json)) (m : gmap string json) :
  ((∃ doc, apply_transforms items (JObj m) = Ok doc) ↔ unknown_transform items = None)
  ∧ (unknown_transform items = None →
     ∃ m' : gmap string json,
       apply_transforms items (JObj m) = Ok (JObj m')
       ∧ m' !! "$MERGE" = match last items with
                          | Some (_, args) => Some args
                          | None => m !! "$MERGE"
                          end
       ∧ ∀ key, key ≠ "$MERGE" → m' !! key = m !! key).
Proof.
  assert (Hok : ∀ m, unknown_transform items = None →
     ∃ m' : gmap string json,
       apply_transforms items (JObj m) = Ok (JObj m')
       ∧ m' !! "$MERGE" = match last items with
                          | Some (_, args) => Some args
                          | None => m !! "$MERGE"
                          end
       ∧ ∀ key, key ≠ "$MERGE" → m' !! key = m !! key).
  { clear m. induction items as [|[transform args] rest IH]; intros m Hall.
    - by exists m.
    - simpl in *. destruct (String.eqb transform "merge"); [|done].
      destruct (IH (<["$MERGE" := args]> m) Hall) as (m' & Hrun & Hmerge & Hother).
      exists m'. split_and!; [done| |].
      + rewrite Hmerge. destruct rest as [|item rest'].
        * simpl. by rewrite lookup_insert_eq.
        * change (last ((transform, args) :: item :: rest')) with (last (item :: rest')).
          destruct (last (item :: rest')) as [[name' args']|] eqn:Hlast; [done|].
          by apply last_None in Hlast.
      + intros key Hkey. rewrite (Hother key Hkey). by rewrite lookup_insert_ne. }
  split; [|by apply Hok]. split.
  - intros [doc Hdoc]. destruct (unknown_transform items) as [name|] eqn:Hname; [|done].
    destruct (apply_transforms_unknown items name Hname) as [Hraise _].
    by rewrite Hraise in Hdoc.
  - intros Hall. destruct (Hok m Hall) as (m' & Hrun & _). eauto.
Qed.

Lemma apply_transforms_all_merge_witness :
  ∃ m' : gmap string json,
    apply_transforms [("merge", JStr "base"); ("merge", JStr "nt")] (JObj {["x" := JNum 2]})
    = Ok (JObj m')
    ∧ m' !! "$MERGE" = Some (JStr "nt")
    ∧ ∀ key, key ≠ "$MERGE" → m' !! key = ({["x" := JNum 2]} : gmap string json) !! key.
Proof.
  apply (proj2 (apply_transforms_all_merge
                  [("merge", JStr "base"); ("merge", JStr "nt")] {["x" := JNum 2]})).
  reflexivity.
Defined.

(** ** [ManageRepository.render] *)

Lemma render_target_skipped (X : Collaborators) classes build_targets force item w :
  selected build_targets item = false →
  render_target X classes build_targets force item () w = (Ok (), w, []).
Proof.
  destruct item as [name kw]. unfold selected, render_target. simpl.
  by destruct (filtered_out build_targets name).
Qed.

(** X2. [render] goes through the targets that the selection keeps and
    through no other: a target that is filtered out costs no call and
    raises no error, whatever its fields; an empty selection keeps every
    target, as no selection does. *)
Theorem render_runs_selected_targets (X : Collaborators)
    (classes : gmap string handler_cls) (build_targets : option (list string))
    (force : bool) (config_file : list (string * Target)) (w : world) :
  render X classes build_targets force config_file w
  = render X classes build_targets force
      (List.filter (selected build_targets) config_file) w
  ∧ render X classes (Some []) force config_file w
    = render X classes None force config_file w
  ∧ (List.filter (selected build_targets) config_file = [] →
     render X classes build_targets force config_file w = (Ok (), w, [])).
Proof.
  assert (Hfilter : ∀ w, render X classes build_targets force config_file w
          = render X classes build_targets force
              (List.filter (selected build_targets) config_file) w).
  { unfold render. induction config_file as [|item rest IH]; intros w0; [done|].
    simpl. destruct (selected build_targets item) eqn:Hsel.
    - simpl. apply bind_ext. intros [] w1. apply IH.
    - rewrite (bind_ok _ _ _ _ _ _ (render_target_skipped X _ _ _ _ _ Hsel)).
      cbv beta. rewrite IH. apply run_eta_inv. }
  split_and!.
  - apply Hfilter.
  - clear Hfilter. unfold render. revert w.
    induction config_file as [|[name kw] rest IH]; intros w; [done|].
    simpl.
    change (render_target X classes (Some []) force (name, kw) ())
      with (render_target X classes None force (name, kw) ()).
    apply bind_ext. intros [] w1. apply IH.
  - intros Hnone. by rewrite Hfilter, Hnone.
Qed.

Lemma render_runs_selected_targets_witness :
  render Demo.X Demo.classes (Some ["nt"]) false
    [("OSX", Demo.target None Demo.kw); ("base", Demo.target (Some "NoSuchPlugin") Demo.kw)]
    (Demo.store [] 0)
  = (Ok (), Demo.store [] 0, []).
Proof.
  apply (proj2 (proj2 (render_runs_selected_targets Demo.X Demo.classes (Some ["nt"]) false
           [("OSX", Demo.target None Demo.kw); ("base", Demo.target (Some "NoSuchPlugin") Demo.kw)]
           (Demo.store [] 0)))).
  reflexivity.
Defined.

(** X3. For a target that the selection keeps and whose type names a
    registered class, [render] constructs the plugin with the name of the
    target, the force flag of the command and the other fields of the
    entry, and calls its [Build] once, on the repository that the targets
    before it left. An exception of that [Build] is the outcome of
    [render], with the repository as [Build] left it: it is not caught, and
    no later target is constructed. When [Build] ends well its result is
    dropped and [render] goes on with the later targets. *)
Theorem render_builds_target_and_propagates (X : Collaborators)
    (classes : gmap string handler_cls) (build_targets : option (list string))
    (force : bool) (before after : list (string * Target))
    (name : string) (kw : Target) (cls : handler_cls) (w w1 : world) (t1 : list event) :
  render X classes build_targets force before w = (Ok (), w1, t1) →
  filtered_out build_targets name = false →
  truthy_str (type kw) = true →
  resolve classes (default "" (type kw)) = Some cls →
  let run := Build X cls {| profile_name := name; force_build_index := force;
                            kwargs := fields kw |} w1 in
  let rest := render X classes build_targets force after (final run) in
  render X classes build_targets force (before ++ (name, kw) :: after) w
  = match outcome run with
    | Raise e =>
        (Raise e, final run, t1 ++ EvConstruct (cls_name cls) name :: trace run)
    | Ok _ =>
        (outcome rest, final rest,
         t1 ++ EvConstruct (cls_name cls) name :: trace run ++ trace rest)
    end.
Proof.
  intros Hbefore Hsel Htype Hcls run rest. subst run rest.
  set (a := {| profile_name := name; force_build_index := force; kwargs := fields kw |}).
  assert (Htarget : render_target X classes build_targets force (name, kw) () w1
                    = (match outcome (Build X cls a w1) with
                       | Ok _ => Ok ()
                       | Raise e => Raise e
                       end, final (Build X cls a w1),
                       EvConstruct (cls_name cls) name :: trace (Build X cls a w1))).
  { unfold render_target. rewrite Hsel, Htype. simpl. rewrite Hcls.
    fold a. unfold bind, emit, ret.
    destruct (Build X cls a w1) as [[[v|e] w2] t2]; simpl; by rewrite ?app_nil_r. }
  unfold render in *. rewrite for_each_app. unfold bind at 1. rewrite Hbefore.
  cbn [for_each]. unfold bind at 1. rewrite Htarget.
  destruct (Build X cls a w1) as [[[v|e] w2] t2]; unfold outcome, final, trace; simpl;
    [|done].
  by destruct (for_each after (render_target X classes build_targets force) () w2)
    as [[r w3] t3].
Qed.

Lemma render_builds_target_and_propagates_witness :
  let w := Demo.store [("src/base.json", Entry "{}" 3)] 9 in
  let after := [("OSX", Demo.target (Some "OSXProfile") Demo.kw)] in
  render Demo.X Demo.classes None false
    ([] ++ ("base", Demo.target (Some "CopyAndTransform") Demo.kw_rename) :: after) w
  = (Raise (RuntimeError "Unknown transform rename"), w,
     [EvConstruct "CopyAndTransform" "base"; EvMetadata "base"; EvMetadata "src/base.json";
      EvGetData "src/base.json" false; EvTransformProfile]).
Proof.
  intros w after.
  exact (render_builds_target_and_propagates Demo.X Demo.classes None false [] after
           "base" (Demo.target (Some "CopyAndTransform") Demo.kw_rename) CopyAndTransform
           w w [] eq_refl eq_refl eq_refl eq_refl).
Defined.

(** ** What a plugin writes *)

Lemma Build_holds_grows (X : Collaborators) (cls : handler_cls) (a : Args) (w0 : world) :
  holds (grows w0) (λ _, True) (Build X cls a).
Proof.
  destruct cls; simpl.
  - grows_auto.
  - unfold windows_Build, windows_loop, build_pdb.
    repeat (first [apply build_guid_grows | apply BuildIndex_grows | holds_step]); done.
  - unfold copy_Build. grows_auto.
  - unfold osx_Build, osx_loop.
    repeat (first [apply osx_body_grows | apply BuildIndex_grows | holds_step]); done.
  - unfold linux_Build, linux_loop.
    repeat (first [apply linux_body_grows | apply BuildIndex_grows | holds_step]); done.
Qed.

(** X4. No plugin and no run of [render] removes an entry of the
    repository: a path that is there before is there after, also when the
    run ends with an exception. *)
Theorem repository_only_grows (X : Collaborators) (classes : gmap string handler_cls)
    (build_targets : option (list string)) (force : bool)
    (config_file : list (string * Target)) (cls : handler_cls) (a : Args) (w : world) :
  grows w (final (Build X cls a w))
  ∧ grows w (final (render X classes build_targets force config_file w)).
Proof.
  split.
  - apply holds_grows. intros w0. apply Build_holds_grows.
  - apply holds_grows. intros w0. unfold render. apply holds_for_each.
    intros [name kw] []. unfold render_target.
    repeat (first [apply Build_holds_grows | holds_step]); done.
Qed.

Lemma frame_store (X : Collaborators) (w : world) (path p : string) (data : payload) :
  p ≠ path →
  ∀ w', files w' !! path = files w !! path →
        files (final (StoreData X p data w')) !! path = files w !! path.
Proof. intros Hne w' Hw'. unfold final; simpl. by rewrite lookup_insert_ne. Qed.



(** ** [BuildIndex] *)

(** X6. [BuildIndex] ends well exactly when the index spec is configured,
    is in the repository and decodes, and the indexer answers; it then
    stores the encoded index under [<profile_name>/index] and nothing
    else. When it raises, it has stored nothing. *)
Theorem BuildIndex_stores_index_or_nothing (X : Collaborators) (a : Args) (w : world) :
  let run := BuildIndex X a w in
  ((∃ u, outcome run = Ok u)
     ↔ ∃ path e spec idx,
         index (kwargs a) = Some path ∧ files w !! path = Some e
         ∧ Decoder X (content e) = Some spec ∧ build_index X spec (files w) = Some idx)
  ∧ (∀ path e spec idx,
       index (kwargs a) = Some path → files w !! path = Some e →
       Decoder X (content e) = Some spec → build_index X spec (files w) = Some idx →
       run = (Ok (),
              {| files := <[index_path (profile_name a) :=
                              Entry (PPrint X idx) (advance X (clock w))]> (files w);
                 clock := advance X (clock w) |},
              [EvBuildIndex (profile_name a); EvGetData path false; EvIndexer;
               EvStoreData (index_path (profile_name a)) (Doc idx)]))
  ∧ (is_raise (outcome run) →
     final run = w ∧ Forall (λ ev, is_store ev = false) (trace run)).
Proof.
  intros run. subst run.
  unfold BuildIndex, GetData_index, bind, emit, GetData, raise, snapshot, call_plugin,
    StoreData, outcome, final, trace.
  assert (Hquiet : Forall (λ ev, is_store ev = false) [EvBuildIndex (profile_name a)])
    by (by repeat constructor).
  destruct (index (kwargs a)) as [path|] eqn:Hpath; simpl.
  2:{ split; [|split]; [split; [by intros [u Hu] | by intros (? & ? & ? & ? & ? & _)]
                       | by intros ? ? ? ? ? | done]. }
  destruct (files w !! path) as [e|] eqn:He; simpl.
  2:{ split; [|split].
      - split; [by intros [u Hu]|]. intros (? & ? & ? & ? & ? & ? & _). congruence.
      - intros ? ? ? ? ? ?. congruence.
      - intros _. split; [done | by repeat constructor]. }
  destruct (Decoder X (content e)) as [spec|] eqn:Hspec; simpl.
  2:{ split; [|split].
      - split; [by intros [u Hu]|]. intros (? & ? & ? & ? & ? & ? & ? & _). congruence.
      - intros ? ? ? ? ? ? ?. congruence.
      - intros _. split; [done | by repeat constructor]. }
  destruct (build_index X spec (files w)) as [idx|] eqn:Hidx; simpl.
  - split; [|split].
    + split; [|by eauto]. intros _. by exists path, e, spec, idx.
    + intros ? ? ? ? ? ? ? ?. by simplify_eq.
    + done.
  - split; [|split].
    + split; [by intros [u Hu]|]. intros (? & ? & ? & ? & ? & ? & ? & ?). congruence.
    + intros ? ? ? ? ? ? ? ?. congruence.
    + intros _. split; [done | by repeat constructor].
Qed.

Lemma BuildIndex_stores_index_or_nothing_witness :
  let w := Demo.store [("src/index.yaml", Entry "{}" 1)] 5 in
  BuildIndex Demo.X (Demo.args "nt" false Demo.kw_index) w
  = (Ok (),
     {| files := <["nt/index" := Entry "{}" 6]> (files w); clock := 6 |},
     [EvBuildIndex "nt"; EvGetData "src/index.yaml" false; EvIndexer;
      EvStoreData "nt/index" (Doc (JObj ∅))]).
Proof.
  intros w.
  exact (proj1 (proj2 (BuildIndex_stores_index_or_nothing Demo.X
           (Demo.args "nt" false Demo.kw_index) w))
           "src/index.yaml" (Entry "{}" 1) (JObj ∅) (JObj ∅)
           eq_refl eq_refl eq_refl eq_refl).
Defined.

(** ** [CopyAndTransform] and the plugins without a force flag *)

(** X7. Without its source in the repository, [CopyAndTransform.Build]
    raises and leaves the repository as it is: it stores and transforms
    nothing, whether the profile is there or not. *)
Theorem copy_Build_without_source (X : Collaborators) (a : Args) (w : world) :
  files w !! source (kwargs a) = None →
  let run := Build X CopyAndTransform a w in
  is_raise (outcome run)
  ∧ final run = w
  ∧ Forall (λ ev, is_work ev = false) (trace run)
  ∧ (files w !! profile_name a = None → outcome run = Raise (NotFound (source (kwargs a)))).
Proof.
  intros Hsrc run. subst run. simpl.
  unfold copy_Build, bind, Metadata, lift, copy_stale, GetData, outcome, final, trace.
  rewrite Hsrc. simpl.
  destruct (files w !! profile_name a) as [tgt|]; simpl; rewrite ?Hsrc; simpl;
    split_and!; try done; by repeat constructor.
Qed.

Lemma copy_Build_without_source_witness :
  let run := Build Demo.X CopyAndTransform (Demo.args "base" false Demo.kw)
               (Demo.store [("base", Entry "{}" 3)] 5) in
  is_raise (outcome run)
  ∧ final run = Demo.store [("base", Entry "{}" 3)] 5
  ∧ Forall (λ ev, is_work ev = false) (trace run)
  ∧ (files (Demo.store [("base", Entry "{}" 3)] 5) !! "base" = None →
     outcome run = Raise (NotFound "src/base.json")).
Proof.
  apply (copy_Build_without_source Demo.X (Demo.args "base" false Demo.kw)
           (Demo.store [("base", Entry "{}" 3)] 5)).
  reflexivity.
Defined.

(** X8. [CopyAndTransform.Build] never builds an index, whatever the force
    flag and the index argument say, and what it stores is pretty-printed
    data under its profile name. *)
Theorem copy_Build_stores_profile_only (X : Collaborators) (a : Args) (w : world) :
  Forall (λ ev,
            is_index_build ev = false
            ∧ ev ≠ EvIndexer
            ∧ ∀ path data, ev = EvStoreData path data →
                path = profile_name a ∧ ∃ doc, data = Raw (PPrint X doc))
    (trace (Build X CopyAndTransform a w)).
Proof.
  revert w. change (emits (λ ev,
            is_index_build ev = false
            ∧ ev ≠ EvIndexer
            ∧ ∀ path data, ev = EvStoreData path data →
                path = profile_name a ∧ ∃ doc, data = Raw (PPrint X doc))
            (copy_Build X a)).
  unfold copy_Build. emits_auto; split_and!; try done; intros path data' [= <- <-]; eauto.
Qed.

(** X9. The force flag means nothing to [CopyAndTransform.Build],
    [OSXProfile.Build] and the base class: with the flag or without, a call
    does the same. *)
Theorem force_flag_is_ignored (X : Collaborators) (a : Args) (w : world) (force : bool) :
  Build X CopyAndTransform (with_force force a) w = Build X CopyAndTransform a w
  ∧ Build X OSXProfile (with_force force a) w = Build X OSXProfile a w
  ∧ Build X RepositoryPlugin (with_force force a) w = Build X RepositoryPlugin a w.
Proof. by destruct a. Qed.

(** ** The flag [changed_files] and the counters *)

(** A loop whose body either skips, leaving flag and repository alone, or
    raises the flag after a store that [f] recognises. *)
Lemma for_each_changed {A S} (flag : S → bool) (f : event → bool)
    (body : A → S → M S) (l : list A) :
  (∀ x acc w acc' w' t,
     body x acc w = (Ok acc', w', t) →
     (flag acc' = flag acc ∧ w' = w ∧ existsb is_store t = false)
     ∨ (flag acc' = true ∧ existsb f t = true)) →
  ∀ acc w acc' w' t,
    for_each l body acc w = (Ok acc', w', t) →
    (flag acc' = flag acc ∧ w' = w ∧ existsb is_store t = false)
    ∨ (flag acc' = true ∧ existsb f t = true).
Proof.
  intros Hbody. induction l as [|x l IH]; intros acc w acc' w' t Hrun.
  - injection Hrun as <- <- <-. by left.
  - simpl in Hrun.
    apply bind_inv_ok in Hrun as (acc1 & w1 & t1 & t2 & Hx & Hrest & ->).
    rewrite !existsb_app.
    destruct (Hbody _ _ _ _ _ _ Hx) as [(Hf1 & -> & Hq1)|[Hf1 Hs1]];
      destruct (IH _ _ _ _ _ Hrest) as [(Hf2 & -> & Hq2)|[Hf2 Hs2]].
    + left. rewrite Hq1, Hq2. split_and!; [congruence|done|done].
    + right. rewrite Hs2, orb_true_r. done.
    + right. rewrite Hs1. split; [congruence|done].
    + right. rewrite Hs1. done.
Qed.

Lemma build_guid_changed (X : Collaborators) (a : Args) pdb g acc w acc' w' t :
  build_guid X a pdb g acc w = (Ok acc', w', t) →
  (acc' = acc ∧ w' = w ∧ existsb is_store t = false)
  ∨ (acc' = true ∧ existsb is_doc_store t = true).
Proof.
  intros Hrun.
  unfold build_guid, FetchPDB, ParsePDB, TransformProfile, bind, Metadata, emit, ret,
    call_plugin, GetDataRaw, StoreData, lift in Hrun.
  destruct (files w !! profile_path (profile_name a) g) as [e|]; simpl in Hrun.
  - injection Hrun as <- <- <-. by left.
  - right. repeat case_match; simplify_eq; simpl; rewrite ?existsb_app; simpl;
      by rewrite ?orb_true_r.
Qed.

(** X10. When the loop of [WindowsGUIDProfile.Build] ends well, its flag
    [changed_files] is set exactly when the loop stored a profile; with the
    flag unset the loop has stored nothing and the repository is as it
    was. *)
Theorem windows_flag_tracks_profiles (X : Collaborators) (a : Args)
    (w w1 : world) (changed : bool) (t : list event) :
  windows_loop X a w = (Ok changed, w1, t) →
  changed = existsb is_doc_store t
  ∧ (changed = false → w1 = w ∧ existsb is_store t = false).
Proof.
  intros Hloop. unfold windows_loop in Hloop.
  apply bind_inv_ok in Hloop as (doc & w2 & t1 & t2 & Hget & Hloop & ->).
  assert (w2 = w) as -> by (by rewrite <- (GetData_reads X (guids (kwargs a)) w), Hget).
  assert (t1 = [EvGetData (guids (kwargs a)) false]) as ->.
  { pose proof (GetData_ok_inv X (guids (kwargs a)) w doc) as Hinv.
    rewrite Hget in Hinv. specialize (Hinv eq_refl). congruence. }
  apply bind_inv_ok in Hloop as (items & w3 & t3 & t4 & Hitems & Hloop & ->).
  injection Hitems as _ <- <-.
  assert (Hcases : (changed = false ∧ w1 = w ∧ existsb is_store t4 = false)
                   ∨ (changed = true ∧ existsb is_doc_store t4 = true)).
  { apply (for_each_changed id is_doc_store (build_pdb X a) items) in Hloop; [done|].
    intros [pdb gl] acc w0 acc' w' t Hpdb. unfold build_pdb in Hpdb. simpl in Hpdb.
    apply bind_inv_ok in Hpdb as (ids & w4 & t5 & t6 & Hids & Hguids & ->).
    injection Hids as _ <- <-. simpl.
    apply (for_each_changed id is_doc_store (build_guid X a pdb) ids) in Hguids; [done|].
    intros g acc0 w5 acc1 w6 t7. apply build_guid_changed. }
  simpl. destruct Hcases as [(-> & -> & Hq)|[-> Hs]].
  - split; [|done]. destruct (existsb is_doc_store t4) eqn:Hdoc; [|done].
    exfalso. apply existsb_exists in Hdoc as (ev & Hin & Hev).
    assert (existsb is_store t4 = true); [|congruence].
    apply existsb_exists. exists ev. split; [done|]. by destruct ev as [| |? []| | | | | | | | | | | |].
  - by rewrite Hs.
Qed.

Lemma windows_flag_tracks_profiles_witness :
  let w := Demo.store [("nt/guids", Entry "guids" 1); ("nt/G1", Entry "{}" 2);
                       ("nt/G2", Entry "{}" 3)] 5 in
  false = existsb is_doc_store (trace (windows_loop Demo.X (Demo.args "nt" false Demo.kw) w))
  ∧ (false = false →
     final (windows_loop Demo.X (Demo.args "nt" false Demo.kw) w) = w
     ∧ existsb is_store (trace (windows_loop Demo.X (Demo.args "nt" false Demo.kw) w)) = false).
Proof.
  intros w.
  apply (windows_flag_tracks_profiles Demo.X (Demo.args "nt" false Demo.kw) w).
  vm_compute. reflexivity.
Defined.

Lemma osx_body_changed (X : Collaborators) (a : Args) s acc w acc' w' t :
  osx_body X a s acc w = (Ok acc', w', t) →
  (acc' = acc ∧ w' = w ∧ existsb is_store t = false)
  ∨ (acc' = true ∧ existsb is_store t = true).
Proof.
  intros Hrun.
  unfold osx_body, TransformProfile, bind, Metadata, emit, ret, GetData, StoreData,
    lift in Hrun.
  destruct (files w !! osx_profile_name s) as [e|]; simpl in Hrun.
  - injection Hrun as <- <- <-. by left.
  - right. repeat case_match; simplify_eq; simpl; rewrite ?existsb_app; simpl;
      by rewrite ?orb_true_r.
Qed.

(** X11. When the loop of [OSXProfile.Build] ends well, its flag
    [changed_files] is set exactly when the loop stored a profile, and
    with the flag unset the repository is as it was; the index is built
    only after a loop that set the flag. *)
Theorem osx_flag_tracks_stores (X : Collaborators) (a : Args)
    (w w1 : world) (changed : bool) (t : list event) :
  osx_loop X a w = (Ok changed, w1, t) →
  changed = existsb is_store t
  ∧ (changed = false →
     w1 = w ∧ Build X OSXProfile a w = (Ok VNone, w, t)).
Proof.
  intros Hloop.
  pose proof Hloop as Hcases. unfold osx_loop in Hcases.
  apply (for_each_changed id is_store (osx_body X a)) in Hcases;
    [|intros s acc w0 acc' w' t0; apply osx_body_changed].
  simpl in Hcases. destruct Hcases as [(-> & -> & Hq)|[-> Hs]].
  - split; [done|]. intros _. split; [done|].
    simpl. unfold osx_Build. rewrite (bind_ok _ _ _ _ _ _ Hloop). cbv beta.
    unfold index_wanted_osx. simpl. by rewrite app_nil_r.
  - by rewrite Hs.
Qed.

Lemma osx_flag_tracks_stores_witness :
  let w := Demo.store [("src/OSX/10.9.json", Entry "{}" 1)] 5 in
  true = existsb is_store (trace (osx_loop Demo.X (Demo.args "OSX" true Demo.kw_index) w))
  ∧ (true = false →
     final (osx_loop Demo.X (Demo.args "OSX" true Demo.kw_index) w) = w
     ∧ Build Demo.X OSXProfile (Demo.args "OSX" true Demo.kw_index) w
       = (Ok VNone, w, trace (osx_loop Demo.X (Demo.args "OSX" true Demo.kw_index) w))).
Proof.
  intros w.
  apply (osx_flag_tracks_stores Demo.X (Demo.args "OSX" true Demo.kw_index) w).
  vm_compute. reflexivity.
Defined.

Lemma linux_body_counts (X : Collaborators) (a : Args) s v w v' w' t :
  linux_body X a s v w = (Ok v', w', t) →
  total_profiles v' = total_profiles v + (if is_linux_source s then 1 else 0)
  ∧ new_profiles v' = new_profiles v + Z.of_nat (length (List.filter is_store t))
  ∧ changed_files v' = changed_files v || existsb is_store t.
Proof.
  intros Hrun.
  unfold linux_body, bind, Metadata, emit, ret, raise, snapshot, call_plugin,
    StoreData in Hrun.
  destruct (is_linux_source s).
  2:{ injection Hrun as <- <- <-. simpl. split_and!; [lia | lia | by rewrite orb_false_r]. }
  destruct (files w !! linux_profile_id s) as [e|]; simpl in Hrun.
  - injection Hrun as <- <- <-. simpl. split_and!; [lia | lia | by rewrite orb_false_r].
  - repeat case_match; simplify_eq; simpl; split_and!; try lia; by rewrite ?orb_true_r.
Qed.

Lemma linux_scan_counts (X : Collaborators) (a : Args) l v w v' w' t :
  for_each l (linux_body X a) v w = (Ok v', w', t) →
  total_profiles v' = total_profiles v + Z.of_nat (length (List.filter is_linux_source l))
  ∧ new_profiles v' = new_profiles v + Z.of_nat (length (List.filter is_store t))
  ∧ changed_files v' = changed_files v || existsb is_store t.
Proof.
  revert v w t. induction l as [|s l IH]; intros v w t Hrun.
  - injection Hrun as <- <- <-. simpl. split_and!; [lia | lia | by rewrite orb_false_r].
  - simpl in Hrun.
    apply bind_inv_ok in Hrun as (v1 & w1 & t1 & t2 & Hbody & Hrest & ->).
    destruct (linux_body_counts X a _ _ _ _ _ _ Hbody) as (Htot1 & Hnew1 & Hch1).
    destruct (IH _ _ _ Hrest) as (Htot2 & Hnew2 & Hch2).
    rewrite List.filter_app, length_app, existsb_app. simpl.
    split_and!.
    + destruct (is_linux_source s); simpl; lia.
    + lia.
    + by rewrite Hch2, Hch1, orb_assoc.
Qed.

(** X12. When the scan of [LinuxProfile.Build] ends well, [total_profiles]
    is the number of raw archives in the listing, [new_profiles] the
    number of profiles that the scan stored, and [changed_files] is set
    exactly when that number is not zero. *)
Theorem linux_counters_count (X : Collaborators) (a : Args)
    (w w1 : world) (vars : linux_vars) (t : list event) :
  linux_loop X a w = (Ok vars, w1, t) →
  total_profiles vars
  = Z.of_nat (length (List.filter is_linux_source (map_to_list (files w)).*1))
  ∧ new_profiles vars = Z.of_nat (length (List.filter is_store t))
  ∧ (changed_files vars = true ↔ 0 < new_profiles vars)
  ∧ new_profiles vars ≤ total_profiles vars.
Proof.
  intros Hloop. unfold linux_loop in Hloop.
  apply bind_inv_ok in Hloop as (u & w2 & t1 & t2 & Hload & Hloop & ->).
  injection Hload as _ <- <-.
  apply bind_inv_ok in Hloop as (listing & w3 & t3 & t4 & Hlist & Hloop & ->).
  injection Hlist as <- <- <-.
  destruct (linux_scan_counts X a _ _ _ _ _ _ Hloop) as (Htot & Hnew & Hch).
  simpl in *.
  assert (Hle : new_profiles vars ≤ total_profiles vars).
  { clear Htot Hnew Hch.
    assert (Hgen : ∀ l v0 w0 v' w' t', new_profiles v0 ≤ total_profiles v0 →
              for_each l (linux_body X a) v0 w0 = (Ok v', w', t') →
              new_profiles v' ≤ total_profiles v').
    { induction l as [|s l IH]; intros v0 w0 v' w' t' Hv Hrun.
      - by injection Hrun as <- _ _.
      - simpl in Hrun.
        apply bind_inv_ok in Hrun as (v1 & w4 & t5 & t6 & Hbody & Hrest & ->).
        eapply IH; [|exact Hrest].
        unfold linux_body, bind, Metadata, emit, ret, raise, snapshot, call_plugin,
          StoreData in Hbody.
        destruct (is_linux_source s); [|by injection Hbody as <- _ _].
        destruct (files w0 !! linux_profile_id s) as [e|]; simpl in Hbody.
        + injection Hbody as <- _ _. simpl. lia.
        + repeat case_match; simplify_eq; simpl; lia. }
    eapply Hgen; [|exact Hloop]. simpl. lia. }
  split_and!; [lia | lia | | done].
  rewrite Hch, Hnew. simpl.
  destruct (List.filter is_store t4) as [|ev rest] eqn:Hf; simpl.
  - assert (existsb is_store t4 = false) as ->; [|split; [done | lia]].
    destruct (existsb is_store t4) eqn:Hex; [|done].
    apply existsb_exists in Hex as (ev & Hin & Hev).
    assert (List.In ev (List.filter is_store t4)) as Hin' by (by apply List.filter_In).
    by rewrite Hf in Hin'.
  - assert (existsb is_store t4 = true) as ->; [|split; [lia | done]].
    apply existsb_exists. exists ev.
    assert (List.In ev (List.filter is_store t4)) as Hin by (rewrite Hf; by left).
    by apply List.filter_In in Hin.
Qed.

Lemma linux_counters_count_witness :
  let w := Demo.store [("src/Linux/Ubuntu.zip", Entry "PK" 1); ("src/Linux/b.zip", Entry "PK" 2);
                       ("Linux/b", Entry "{}" 3); ("README", Entry "hello" 1)] 5 in
  let run := linux_loop Demo.X (Demo.args "Linux" false Demo.kw) w in
  2 = Z.of_nat (length (List.filter is_linux_source (map_to_list (files w)).*1))
  ∧ 1 = Z.of_nat (length (List.filter is_store (trace run)))
  ∧ (true = true ↔ 0 < 1)
  ∧ 1 ≤ 2.
Proof.
  intros w run.
  apply (linux_counters_count Demo.X (Demo.args "Linux" false Demo.kw) w
           (final run) (LinuxVars true 2 1) (trace run)).
  vm_compute. reflexivity.
Defined.

(** ** Staleness by existence only *)

Section Agree.

Context {A B : Type}.

Lemma agree_ret (a : A) : agree (ret a) (ret a).
Proof. by intros w w' Hw. Qed.

Lemma agree_lift (r : result A) : agree (lift r) (lift r).
Proof. by intros w w' Hw. Qed.

Lemma agree_emit ev : agree (emit ev) (emit ev).
Proof. by intros w w' Hw. Qed.

Lemma agree_call_plugin name ev (answer : option A) :
  agree (call_plugin name ev answer) (call_plugin name ev answer).
Proof. intros w w' Hw. unfold call_plugin. by destruct answer. Qed.

Lemma agree_bind (m m' : M A) (k k' : A → M B) :
  agree m m' → (∀ a, agree (k a) (k' a)) → agree (bind m k) (bind m' k').
Proof.
  intros Hm Hk w w' Hw. destruct (Hm w w' Hw) as (Ho & Ht & Hf). unfold bind.
  destruct (m w) as [[r w1] t1], (m' w') as [[r' w1'] t1'].
  unfold outcome, trace, final in *; simpl in *. subst r' t1'.
  destruct r as [a|e]; [|done].
  destruct (Hk a w1 w1' Hf) as (Ho2 & Ht2 & Hf2).
  destruct (k a w1) as [[r2 w2] t2], (k' a w1') as [[r2' w2'] t2'].
  simpl in *. by subst.
Qed.

(** A test of the truth value of [Metadata(path)] sees whether the path is
    there, not when it was written. *)
Lemma agree_Metadata_test path (k : option Z → M A) :
  (∀ z z', agree (k (Some z)) (k (Some z'))) → agree (k None) (k None) →
  agree (bind (Metadata path) k) (bind (Metadata path) k).
Proof.
  intros Hsome Hnone w w' Hw. unfold bind, Metadata. specialize (Hw path) as Hpath.
  destruct (files w !! path) as [e|], (files w' !! path) as [e'|]; try done; simpl.
  - destruct (Hsome (LastModified e) (LastModified e') w w' Hw) as (Ho & Ht & Hf).
    destruct (k (Some (LastModified e)) w) as [[r2 w2] t2],
             (k (Some (LastModified e')) w') as [[r2' w2'] t2'].
    unfold outcome, trace, final in *; simpl in *. by subst.
  - destruct (Hnone w w' Hw) as (Ho & Ht & Hf).
    destruct (k None w) as [[r2 w2] t2], (k None w') as [[r2' w2'] t2'].
    unfold outcome, trace, final in *; simpl in *. by subst.
Qed.

End Agree.

Lemma agree_for_each {A S} (l : list A) (body : A → S → M S) acc :
  (∀ x acc', agree (body x acc') (body x acc')) →
  agree (for_each l body acc) (for_each l body acc).
Proof.
  intros Hbody. revert acc. induction l as [|x l IH]; intros acc; simpl.
  - apply agree_ret.
  - apply agree_bind; [apply Hbody | apply IH].
Qed.

Lemma agree_GetData (X : Collaborators) path : agree (GetData X path) (GetData X path).
Proof.
  intros w w' Hw. unfold GetData. specialize (Hw path) as Hpath.
  destruct (files w !! path) as [e|], (files w' !! path) as [e'|]; try done.
  injection Hpath as ->. by destruct (Decoder X (content e')).
Qed.

Lemma agree_GetDataRaw path : agree (GetDataRaw path) (GetDataRaw path).
Proof.
  intros w w' Hw. unfold GetDataRaw. specialize (Hw path) as Hpath.
  destruct (files w !! path) as [e|], (files w' !! path) as [e'|]; try done.
  injection Hpath as ->. done.
Qed.

Lemma agree_StoreData (X : Collaborators) path data :
  agree (StoreData X path data) (StoreData X path data).
Proof.
  intros w w' Hw. split_and!; [done|done|]. intros p. unfold final; simpl.
  destruct (decide (path = p)) as [->|Hne].
  - by rewrite !lookup_insert_eq.
  - rewrite !lookup_insert_ne by done. apply Hw.
Qed.

Lemma agree_raise {A} (e : exn) : agree (@raise A e) (raise e).
Proof. by intros w w' Hw. Qed.

Ltac agree_step X :=
  match goal with
  | |- agree (raise _) _ => apply agree_raise
  | |- agree (bind (Metadata _) _) _ =>
      apply agree_Metadata_test; [intros ? ?|]; cbv beta iota
  | |- agree (bind _ _) _ => apply agree_bind; [|intros ?]
  | |- agree (for_each _ _ _) _ => apply agree_for_each; intros ? ?
  | |- agree (ret _) _ => apply agree_ret
  | |- agree (lift _) _ => apply agree_lift
  | |- agree (emit _) _ => apply agree_emit
  | |- agree (call_plugin _ _ _) _ => apply agree_call_plugin
  | |- agree (GetData _ _) _ => apply agree_GetData
  | |- agree (GetDataRaw _) _ => apply agree_GetDataRaw
  | |- agree (StoreData _ _ _) _ => apply agree_StoreData
  end.

(** X13. The loops of [WindowsGUIDProfile.Build] and [OSXProfile.Build]
    decide by existence only: on two repositories with the same paths and
    the same bytes, whatever the modification times, they end alike, make
    the same calls and leave the same content. *)
Theorem loops_ignore_timestamps (X : Collaborators) (a : Args) (w w' : world) :
  same_content w w' →
  (outcome (windows_loop X a w) = outcome (windows_loop X a w')
   ∧ trace (windows_loop X a w) = trace (windows_loop X a w')
   ∧ same_content (final (windows_loop X a w)) (final (windows_loop X a w')))
  ∧ (outcome (osx_loop X a w) = outcome (osx_loop X a w')
     ∧ trace (osx_loop X a w) = trace (osx_loop X a w')
     ∧ same_content (final (osx_loop X a w)) (final (osx_loop X a w'))).
Proof.
  intros Hw. split.
  - revert w w' Hw. change (agree (windows_loop X a) (windows_loop X a)).
    unfold windows_loop, build_pdb, build_guid, FetchPDB, ParsePDB, _RunPlugin,
      TransformProfile.
    repeat agree_step X.
  - revert w w' Hw. change (agree (osx_loop X a) (osx_loop X a)).
    unfold osx_loop, osx_body, TransformProfile.
    repeat agree_step X.
Qed.

Lemma loops_ignore_timestamps_witness :
  let a := Demo.args "nt" false Demo.kw in
  let w := Demo.store [("nt/guids", Entry "guids" 1); ("nt/G1", Entry "{}" 9);
                       ("src/pdb/G2.pdb", Entry "MSF" 2)] 10 in
  let w' := Demo.store [("nt/guids", Entry "guids" 7); ("nt/G1", Entry "{}" 3);
                        ("src/pdb/G2.pdb", Entry "MSF" 8)] 20 in
  trace (windows_loop Demo.X a w) = trace (windows_loop Demo.X a w').
Proof.
  intros a w w'.
  assert (Hsame : same_content w w');
    [|exact (proj1 (proj2 (proj1 (loops_ignore_timestamps Demo.X a w w' Hsame))))].
  intros path. unfold w, w', Demo.store. simpl.
  destruct (decide (path = "nt/guids")) as [->|H1]; [done|].
  destruct (decide (path = "nt/G1")) as [->|H2]; [done|].
  destruct (decide (path = "src/pdb/G2.pdb")) as [->|H3]; [done|].
  by rewrite !lookup_insert_ne, !lookup_empty by done.
Defined.

(** ** Names of profiles *)

Lemma has_char_cons sep c s : has_char sep (String c s) = Ascii.eqb sep c || has_char sep s.
Proof. reflexivity. Qed.

(** X14. The profile that [OSXProfile.Build] builds from a source is
    [OSX/] followed by the last segment of the source path: the source is
    a prefix, empty or ending with a slash, followed by that segment, and
    the segment holds no slash. A source without a slash is its own
    segment. *)
Theorem osx_profile_name_is_last_segment (source : string) :
  ∃ before segment,
    source = before +:+ segment
    ∧ osx_profile_name source = "OSX/" +:+ segment
    ∧ has_char "/" segment = false
    ∧ (before = "" ∨ PyStr.last before = Some "/"%char)
    ∧ (has_char "/" source = false → segment = source).
Proof.
  unfold osx_profile_name.
  assert (Hseg : ∃ before,
    source = before +:+ PyStr.last_segment "/" source
    ∧ has_char "/" (PyStr.last_segment "/" source) = false
    ∧ (before = "" ∨ PyStr.last before = Some "/"%char)
    ∧ (has_char "/" source = false → PyStr.last_segment "/" source = source)).
  { induction source as [|c rest (before & Heq & Hno & Hpre & Hsame)].
    - exists "". split_and!; [done | done | by left | done].
    - cbn [PyStr.last_segment]. fold (has_char "/" rest). rewrite has_char_cons.
      destruct (has_char "/" rest) eqn:Hrest.
      + exists (String c before). rewrite append_cons, <- Heq, orb_true_r.
        split_and!; [done | done | | done].
        right. destruct Hpre as [->|Hlast].
        * rewrite append_nil in Heq. rewrite <- Heq in Hno. congruence.
        * destruct before; [done|]. exact Hlast.
      + rewrite orb_false_r. rewrite (Ascii.eqb_sym c "/").
        destruct (Ascii.eqb "/" c) eqn:Hc.
        * apply Ascii.eqb_eq in Hc. subst c. exists "/".
          split_and!; [done | done | by right | done].
        * exists "". rewrite has_char_cons, Hc, Hrest.
          split_and!; [done | done | by left | done]. }
  destruct Hseg as (before & Heq & Hno & Hpre & Hsame).
  by exists before, (PyStr.last_segment "/" source).
Qed.

(** X15. Two sources with the same last segment have one profile: once
    [OSXProfile.Build] has built it from the first, the second costs a
    metadata call and is neither read nor stored. *)
Theorem osx_same_name_built_once (X : Collaborators) (a : Args) (s1 s2 : string)
    (acc acc1 : bool) (w w1 : world) (t1 : list event) :
  PyStr.last_segment "/" s2 = PyStr.last_segment "/" s1 →
  osx_body X a s1 acc w = (Ok acc1, w1, t1) →
  osx_body X a s2 acc1 w1 = (Ok acc1, w1, [EvMetadata (osx_profile_name s1)]).
Proof.
  intros Hname Hfirst.
  destruct (osx_body_built X a _ _ _ _ _ _ Hfirst) as [e He].
  assert (Hsame : osx_profile_name s2 = osx_profile_name s1)
    by (unfold osx_profile_name; by rewrite Hname).
  unfold osx_body, bind, Metadata. rewrite Hsame, He. reflexivity.
Qed.

Lemma osx_same_name_built_once_witness :
  let w := Demo.store [("src/OSX/10.9.json", Entry "{}" 1); ("old/10.9.json", Entry "{}" 1)] 5 in
  let first := osx_body Demo.X (Demo.args "OSX" false Demo.kw) "src/OSX/10.9.json" false w in
  osx_body Demo.X (Demo.args "OSX" false Demo.kw) "old/10.9.json" true (final first)
  = (Ok true, final first, [EvMetadata "OSX/10.9.json"]).
Proof.
  intros w first.
  apply (osx_same_name_built_once Demo.X (Demo.args "OSX" false Demo.kw)
           "src/OSX/10.9.json" "old/10.9.json" false true w (final first) (trace first)).
  - reflexivity.
  - vm_compute. reflexivity.
Defined.

Lemma startswith_spec s p : PyStr.startswith s p = true → ∃ tail, s = p +:+ tail.
Proof.
  revert s. induction p as [|c p IH]; intros s Hs.
  - by exists s.
  - destruct s as [|d s]; [done|]. cbn [PyStr.startswith] in Hs.
    destruct (Ascii.eqb c d) eqn:Hc; [|done]. apply Ascii.eqb_eq in Hc. subst d.
    destruct (IH s Hs) as [tail ->]. by exists tail.
Qed.

Lemma rstrip_cons_keep chars c s :
  PyStr.mem c chars = false →
  PyStr.rstrip chars (String c s) = String c (PyStr.rstrip chars s).
Proof. intros Hc. cbn [PyStr.rstrip]. rewrite Hc. by destruct (PyStr.rstrip chars s). Qed.

Lemma rstrip_cons_rest chars c s d kept :
  PyStr.rstrip chars s = String d kept →
  PyStr.rstrip chars (String c s) = String c (String d kept).
Proof. intros Hs. cbn [PyStr.rstrip]. by rewrite Hs. Qed.

(** X16. The id that [LinuxProfile.Build] derives from a raw archive
    [src/Linux<tail>] is [Linux] followed by the tail without its trailing
    characters among [. z i p]: every profile that the scan stores has a
    path that begins with [Linux]. *)
Theorem linux_profile_id_begins_with_Linux (source_profile : string) :
  is_linux_source source_profile = true →
  ∃ tail, source_profile = "src/Linux" +:+ tail
          ∧ linux_profile_id source_profile = "Linux" +:+ PyStr.rstrip ".zip" tail.
Proof.
  unfold is_linux_source. intros Hsrc. apply andb_true_iff in Hsrc as [Hstart _].
  apply startswith_spec in Hstart as [tail ->]. exists tail. split; [done|].
  unfold linux_profile_id.
  change (PyStr.lstrip "src/" ("src/Linux" +:+ tail)) with ("Linux" +:+ tail).
  change ("Linux" +:+ tail)
    with (String "L" (String "i" (String "n" (String "u" (String "x" tail))))).
  rewrite (rstrip_cons_keep ".zip" "L") by done.
  assert (Hnux : PyStr.rstrip ".zip" (String "n" (String "u" (String "x" tail)))
                 = String "n" (String "u" (String "x" (PyStr.rstrip ".zip" tail)))).
  { by rewrite !rstrip_cons_keep. }
  by rewrite (rstrip_cons_rest ".zip" "i" _ _ _ Hnux).
Qed.

Lemma linux_profile_id_begins_with_Linux_witness :
  ∃ tail, "src/Linux/Debian-3.2.zip" = "src/Linux" +:+ tail
          ∧ linux_profile_id "src/Linux/Debian-3.2.zip" = "Linux" +:+ PyStr.rstrip ".zip" tail.
Proof. apply linux_profile_id_begins_with_Linux. reflexivity. Defined.

(** X17. [LinuxProfile.Build] never stores under the path of a raw
    archive: no call of [StoreData] names one, and every raw archive of
    the repository is after the call what it was before. *)
Theorem linux_Build_keeps_raw_archives (X : Collaborators) (a : Args) (w : world) :
  (∀ path data,
     EvStoreData path data ∈ trace (Build X LinuxProfile a w) →
     is_linux_source path = false)
  ∧ (∀ path,
     is_linux_source path = true →
     files (final (Build X LinuxProfile a w)) !! path = files w !! path).
Proof.
  split.
  - intros path data Hin.
    assert (Hemits : emits (λ ev, ∀ path data, ev = EvStoreData path data →
                                   is_linux_source path = false) (linux_Build X a)).
    { unfold linux_Build, linux_loop, linux_body, BuildIndex, GetData_index.
      emits_auto; intros p d [= <- <-];
        [apply linux_profile_id_not_source | apply index_path_not_source]. }
    specialize (Hemits w). rewrite Forall_forall in Hemits. by eapply Hemits.
  - intros path Hsrc.
    assert (Hholds : holds (λ w', files w' !! path = files w !! path) (λ _, True)
                       (linux_Build X a)).
    { unfold linux_Build, linux_loop, linux_body, BuildIndex, GetData_index.
      repeat holds_step; try done; apply frame_store; intros <-.
      - by rewrite linux_profile_id_not_source in Hsrc.
      - by rewrite index_path_not_source in Hsrc. }
    by apply (Hholds w).
Qed.

Lemma linux_Build_keeps_raw_archives_witness :
  let w := Demo.store [("src/Linux/Ubuntu.zip", Entry "PK" 1)] 5 in
  files (final (Build Demo.X LinuxProfile (Demo.args "Linux" true Demo.kw_index) w))
    !! "src/Linux/Ubuntu.zip"
  = files w !! "src/Linux/Ubuntu.zip".
Proof.
  intros w.
  apply (proj2 (linux_Build_keeps_raw_archives Demo.X
                  (Demo.args "Linux" true Demo.kw_index) w)).
  reflexivity.
Defined.

(** ** Guids of [WindowsGUIDProfile] one by one *)

(** A guid is either skipped, or the body raises before it has done
    anything. *)
Lemma build_guid_inert (X : Collaborators) (a : Args) (pdb g : string) (acc : bool)
    (w0 : world) :
  holds (λ w, w = w0) (λ ev, is_work ev = false) (build_guid X a pdb g acc).
Proof.
  intros w ->.
  destruct (files w0 !! profile_path (profile_name a) g) as [e|] eqn:Hprof.
  - unfold build_guid, bind, Metadata. rewrite Hprof. simpl.
    split; [done | by repeat constructor].
  - rewrite build_guid_raises by done. split; [done|].
    destruct (files w0 !! pdb_path g); by repeat constructor.
Qed.

Lemma existsb_never {A} (l : list A) : existsb (λ _, false) l = false.
Proof. by induction l. Qed.

Lemma build_guid_ok_inv (X : Collaborators) (a : Args) (pdb g : string) (acc : bool)
    (w : world) acc' w' t :
  build_guid X a pdb g acc w = (Ok acc', w', t) →
  acc' = acc ∧ w' = w ∧ existsb is_store t = false.
Proof.
  intros Hrun.
  destruct (files w !! profile_path (profile_name a) g) as [e|] eqn:Hprof.
  - unfold build_guid, bind, Metadata in Hrun. rewrite Hprof in Hrun. simpl in Hrun.
    by injection Hrun as <- <- <-.
  - by rewrite build_guid_raises in Hrun.
Qed.

(** X18. The loop of [WindowsGUIDProfile.Build] builds nothing: whatever
    the guid file lists, it leaves the repository as it was and makes no
    fetch, conversion, transform or store. It ends well only when every
    listed guid had its profile before the call, and its flag
    [changed_files] is then unset; for a guid without a profile the body
    stops at [_RunPlugin], which the class does not define. *)
Theorem windows_loop_builds_nothing (X : Collaborators) (a : Args) (w : world) :
  final (windows_loop X a w) = w
  ∧ Forall (λ ev, is_work ev = false) (trace (windows_loop X a w))
  ∧ (∀ changed doc,
       outcome (windows_loop X a w) = Ok changed →
       outcome (GetData X (guids (kwargs a)) w) = Ok doc →
       changed = false
       ∧ ∀ g, g ∈ guids_of doc →
              is_Some (files w !! profile_path (profile_name a) g))
  ∧ (∀ pdb g acc,
       files w !! profile_path (profile_name a) g = None →
       outcome (build_guid X a pdb g acc w) = Raise (AttributeError "_RunPlugin")).
Proof.
  assert (Hholds : holds (λ w', w' = w) (λ ev, is_work ev = false) (windows_loop X a)).
  { unfold windows_loop, build_pdb. repeat holds_step; try done.
    apply build_guid_inert. }
  destruct (Hholds w eq_refl) as [Hfinal Hquiet].
  split; [done|]. split; [done|]. split.
  - intros changed doc Hok Hdoc.
    destruct (windows_loop X a w) as [[r w1] t] eqn:Hloop.
    unfold outcome, final in *. simpl in *. subst r w1.
    unfold windows_loop in Hloop.
    apply bind_inv_ok in Hloop as (doc' & w2 & t1 & t2 & Hget & Hloop & ->).
    rewrite Hget in Hdoc. simpl in Hdoc. injection Hdoc as ->.
    assert (w2 = w) as -> by (by rewrite <- (GetData_reads X (guids (kwargs a)) w), Hget).
    apply bind_inv_ok in Hloop as (items & w3 & t3 & t4 & Hitems & Hloop & ->).
    injection Hitems as Hitems <- <-.
    split.
    + apply (for_each_changed id (λ _, false) (build_pdb X a) items) in Hloop.
      * destruct Hloop as [(Hflag & _)|[_ Hnone]]; [done|].
        by rewrite existsb_never in Hnone.
      * intros [pdb gl] acc w0 acc' w' t Hpdb. left.
        unfold build_pdb in Hpdb. simpl in Hpdb.
        apply bind_inv_ok in Hpdb as (ids & w4 & t5 & t6 & Hids & Hguids & ->).
        injection Hids as _ <- <-. simpl.
        apply (for_each_changed id (λ _, false) (build_guid X a pdb) ids) in Hguids.
        -- destruct Hguids as [?|[_ Hnone]]; [done|].
           by rewrite existsb_never in Hnone.
        -- intros g acc0 w5 acc1 w6 t7 Hg. left. by eapply build_guid_ok_inv.
    + intros g Hg. unfold guids_of in Hg. rewrite Hitems in Hg.
      apply list_elem_of_In, in_concat in Hg as (ids' & Hids & Hg).
      apply in_map_iff in Hids as (item & <- & Hitem).
      apply list_elem_of_In in Hitem, Hg.
      destruct (pdb_loop_built X a items false w changed w t4 Hloop item Hitem)
        as (ids & Hlist & Hbuilt).
      rewrite Hlist in Hg. by apply Hbuilt.
  - intros pdb g acc Hprof. by rewrite build_guid_raises.
Qed.

Lemma build_guid_skips_built (X : Collaborators) (a : Args) (g pdb g' : string) (acc : bool)
    (w : world) :
  is_Some (files w !! profile_path (profile_name a) g) →
  Forall (λ ev, fetches g ev = false ∧ parses g ev = false)
    (trace (build_guid X a pdb g' acc w)).
Proof.
  intros [e He].
  unfold build_guid, FetchPDB, ParsePDB, TransformProfile, bind, Metadata, emit,
    ret, call_plugin, GetDataRaw, StoreData, lift, trace.
  destruct (decide (g' = g)) as [->|Hne].
  - rewrite He. simpl. by repeat constructor.
  - assert (fetches g (EvFetchPDB g' pdb) = false) as Hf by (by apply String.eqb_neq).
    assert (∀ cls, parses g (EvParsePDB g' cls) = false) as Hp
      by (intros cls; by apply String.eqb_neq).
    destruct (files w !! profile_path (profile_name a) g') as [e'|]; simpl;
      [by repeat constructor|].
    repeat case_match; simplify_eq; simpl; rewrite ?Forall_app; repeat constructor;
      try done; simpl; rewrite ?Forall_app; repeat constructor; try done.
Qed.

(** X19. A guid whose profile is in the repository is left alone by
    [WindowsGUIDProfile.Build]: neither the fetcher nor the converter is
    called for it, whether its raw file is there or not and whatever
    happens to the other guids. *)
Theorem built_guid_is_not_rebuilt (X : Collaborators) (a : Args) (g : string) (w : world) :
  is_Some (files w !! profile_path (profile_name a) g) →
  Forall (λ ev, fetches g ev = false ∧ parses g ev = false)
    (trace (Build X WindowsGUIDProfile a w)).
Proof.
  intros Hbuilt.
  assert (Hholds : holds (λ w', is_Some (files w' !! profile_path (profile_name a) g))
                     (λ ev, fetches g ev = false ∧ parses g ev = false)
                     (windows_Build X a)).
  { assert (Hbody : ∀ pdb g' acc,
              holds (λ w', is_Some (files w' !! profile_path (profile_name a) g))
                (λ ev, fetches g ev = false ∧ parses g ev = false)
                (build_guid X a pdb g' acc)).
    { intros pdb g' acc w' Hw'. split; [|by apply build_guid_skips_built].
      by apply (holds_grows _ w' (λ w0, build_guid_grows X a w0 pdb g' acc)). }
    unfold windows_Build, windows_loop, build_pdb, BuildIndex, GetData_index.
    repeat (holds_step; try apply Hbody); try done.
    all: intros w' Hw'; by apply grows_store. }
  by apply (Hholds w).
Qed.

Lemma built_guid_is_not_rebuilt_witness :
  let w := Demo.store [("nt/guids", Entry "guids" 1); ("nt/G1", Entry "{}" 2)] 5 in
  Forall (λ ev, fetches "G1" ev = false ∧ parses "G1" ev = false)
    (trace (Build Demo.X WindowsGUIDProfile (Demo.args "nt" false Demo.kw) w)).
Proof.
  intros w. apply built_guid_is_not_rebuilt. by eexists.
Defined.

(** ** Ids of Linux profiles *)

(** X20. The id that [LinuxProfile.Build] derives from a path neither
    begins with a character among [s r c /] nor ends with one among
    [. z i p], so that deriving an id from an id gives the id back. *)
Theorem linux_profile_id_is_stable (path : string) :
  PyStr.starts_in "src/" (linux_profile_id path) = false
  ∧ PyStr.ends_in ".zip" (linux_profile_id path) = false
  ∧ linux_profile_id (linux_profile_id path) = linux_profile_id path.
Proof.
  assert (Hstart : PyStr.starts_in "src/" (linux_profile_id path) = false).
  { destruct (PyStr.starts_in "src/" (linux_profile_id path)) eqn:Hs; [|done].
    unfold linux_profile_id in Hs. apply starts_in_rstrip in Hs.
    destruct (lstrip_spec "src/" path) as (dropped & _ & _ & Hfirst). congruence. }
  assert (Hend : PyStr.ends_in ".zip" (linux_profile_id path) = false).
  { unfold linux_profile_id.
    by destruct (rstrip_spec ".zip" (PyStr.lstrip "src/" path)) as (dropped & _ & _ & Hlast). }
  split_and!; [done | done |].
  unfold linux_profile_id at 1.
  rewrite (lstrip_fixed "src/" _ Hstart). by apply rstrip_fixed.
Qed.
